(** * Session store, theme store and route guards of the prompt manager frontend

    A shallow embedding of
      - [frontend/src/contexts/AuthContext.jsx]  (the session store),
      - [frontend/src/contexts/ThemeContext.jsx] (the theme store),
      - [frontend/src/App.jsx]                   (the two route guards),
    and the properties their specification states about them.

    JavaScript values, the browser's [localStorage], the class list of the
    document element and the log of exchanges with the API client are explicit
    data; the handlers are written in a state-and-exception monad, one
    definition per source function, statement by statement. *)

From Stdlib Require Import ZArith String Ascii List.
From stdpp Require Import base option gmap strings list fin_maps pretty.

Set Warnings "-register-all,-clear-no-such-hyp".

Open Scope string_scope.

(** ** JavaScript values *)

(** The values that flow through the stores: what [JSON.parse] yields, what the
    API client resolves to, what the views pass in, plus [undefined].  Objects
    keep their properties in insertion order; the first binding of a name is
    the one a property read sees.  Numbers are the integers (identifiers,
    timestamps): [VNum n] stands for the Number nearest to [n], which is [n]
    itself up to [2^53]. *)
Inductive value : Type :=
| VUndefined
| VNull
| VBool (b : bool)
| VNum (n : Z)
| VStr (s : string)
| VArr (items : list value)
| VObj (props : list (string * value)).

(** [ToBoolean]: the test performed by [if (x)], [x ? a : b] and [x || y]. *)
Definition truthy (v : value) : bool :=
  match v with
  | VUndefined | VNull => false
  | VBool b => b
  | VNum n => negb (n =? 0)%Z
  | VStr s => negb (String.eqb s "")
  | VArr _ | VObj _ => true
  end.

(** [x || y] *)
Definition js_or (x y : value) : value := if truthy x then x else y.

Definition nullish (v : value) : bool :=
  match v with
  | VUndefined | VNull => true
  | _ => false
  end.

Fixpoint assoc (k : string) (props : list (string * value)) : option value :=
  match props with
  | [] => None
  | (k', v) :: rest => if String.eqb k k' then Some v else assoc k rest
  end.

(** A property read [v.k] on a value that is neither [null] nor [undefined].
    The names the stores read ([success], [data], [message], [response], [id])
    are not defined on any built-in prototype, so on a primitive or an array
    the read yields [undefined]. *)
Definition prop (v : value) (k : string) : value :=
  match v with
  | VObj props => default VUndefined (assoc k props)
  | _ => VUndefined
  end.

(** Optional chaining [v?.k]. *)
Definition opt_prop (v : value) (k : string) : value :=
  if nullish v then VUndefined else prop v k.

(** *** Numbers as text: [Number::toString] on integers *)

(** The double nearest to [n > 0], ties going to the even mantissa; from
    [2^1024] on the result stands for [Infinity]. *)
Definition nearest_double (n : Z) : Z :=
  let p := Z.log2 n in
  if (p <=? 52)%Z then n
  else
    let sh := (p - 52)%Z in
    let q := Z.shiftr n sh in
    let r := (n - Z.shiftl q sh)%Z in
    let half := Z.shiftl 1 (sh - 1) in
    let q' := if (half <? r)%Z || ((r =? half)%Z && Z.odd q)
              then (q + 1)%Z else q in
    Z.shiftl q' sh.

(** The decimal [s * 10^j] with the fewest digits [s] among those that read
    back as the double [x], and among these the one nearest to [x] (the even
    [s] on a tie).  The reals that read back as [x] lie between [lo4 / 4] and
    [hi4 / 4], the bounds included when the mantissa of [x] is even; [x4] is
    [4 * x].  The search goes down from [j] and ends at [0], where [x] itself
    is found. *)
Fixpoint shortest_decimal (j : nat) (x4 lo4 hi4 : Z) (closed : bool) : Z * nat :=
  let D := (4 * 10 ^ Z.of_nat j)%Z in
  let c_lo := if closed then (- ((- lo4) / D))%Z else (lo4 / D + 1)%Z in
  let c_hi := if closed then (hi4 / D)%Z else (- ((- hi4) / D) - 1)%Z in
  if (c_lo <=? c_hi)%Z then
    let a := Z.max c_lo (Z.min c_hi (x4 / D)) in
    let b := Z.max c_lo (Z.min c_hi (x4 / D + 1)) in
    let da := Z.abs (a * D - x4) in
    let db := Z.abs (b * D - x4) in
    (if (da <? db)%Z || ((da =? db)%Z && Z.even a) then a else b, j)
  else
    match j with
    | O => ((x4 / 4)%Z, O)
    | S j' => shortest_decimal j' x4 lo4 hi4 closed
    end.

(** The digits [s] and the exponent [j] of the text of the double [x > 0];
    [x] is below [2^(p+1)], hence below [10^(p * 30103 / 100000 + 2)]. *)
Definition decimal_of_double (x : Z) : Z * nat :=
  let p := Z.log2 x in
  if (p <=? 52)%Z then (x, O)
  else
    let u := Z.shiftl 1 (p - 52) in
    let m := (x / u)%Z in
    let lo4 := if (m =? 2 ^ 52)%Z then (4 * x - u)%Z else (4 * x - 2 * u)%Z in
    shortest_decimal (Z.to_nat (p * 30103 / 100000 + 1))
                     (4 * x) lo4 (4 * x + 2 * u) (Z.even m).

(** [Number::toString]: plain digits below [10^21], exponent form from there
    on, [Infinity] beyond the doubles. *)
Definition number_to_string (n : Z) : string :=
  if (n =? 0)%Z then "0"
  else
    let sign := if (n <? 0)%Z then "-" else "" in
    let x := nearest_double (Z.abs n) in
    if (1024 <=? Z.log2 x)%Z then sign ++ "Infinity"
    else
      let '(s, j) := decimal_of_double x in
      let digits := pretty s in
      let n_digits := (String.length digits + j)%nat in
      if (n_digits <=? 21)%nat then sign ++ pretty (s * 10 ^ Z.of_nat j)%Z
      else
        let mantissa :=
          match digits with
          | String d EmptyString => digits
          | String d rest => String d ("." ++ rest)
          | EmptyString => digits
          end in
        sign ++ mantissa ++ "e+" ++ pretty (Z.of_nat n_digits - 1)%Z.

(** *** [ToString]

    [ToString] of an object goes through its [toString]: the one of
    [Object.prototype], unless the object has a property of that name of its
    own, which on the values of the model is never a function, and then the
    conversion throws a [TypeError].  An array joins the texts of its
    elements, [null] and [undefined] counting as empty. *)
Fixpoint stringable (v : value) : bool :=
  match v with
  | VArr items => forallb (fun x => nullish x || stringable x) items
  | VObj props =>
      match assoc "toString" props with
      | Some _ => false
      | None => true
      end
  | _ => true
  end.

(** The text [ToString] gives when it completes. *)
Fixpoint to_string (v : value) : string :=
  match v with
  | VUndefined => "undefined"
  | VNull => "null"
  | VBool true => "true"
  | VBool false => "false"
  | VNum n => number_to_string n
  | VStr s => s
  | VArr items =>
      String.concat ","
        (map (fun x => if nullish x then "" else to_string x) items)
  | VObj _ => "[object Object]"
  end.

(** ** Exceptions *)

(** A thrown exception is an [Error] object.  The handlers only ever read its
    [response] property: the HTTP response an API client attaches to the error
    it throws on a rejected request, [undefined] on errors raised by the
    runtime ([TypeError], [SyntaxError]) and on transport failures. *)
Record error : Type := Error { err_name : string; err_response : value }.

Definition TypeError : error := Error "TypeError" VUndefined.
Definition SyntaxError : error := Error "SyntaxError" VUndefined.

Inductive completion (A : Type) : Type :=
| Normal (a : A)
| Throw (e : error).
Arguments Normal {A} a.
Arguments Throw {A} e.

(** ** The API client *)

Inductive http_method := POST | PUT.

Record request : Type :=
  Request { req_method : http_method; req_path : string; req_body : value }.

(** What awaiting a call of the client produces: the promise fulfils with a
    response, or it rejects. *)
Inductive api_outcome : Type :=
| Resolved (response : value)
| Rejected (e : error).

(** ** The state the handlers act on

    The state cells of the two providers, the browser's storage and class
    list, and two logs.  A handler reads [user] and [theme] as of the render
    that created it; handlers are taken to be called from the latest render,
    so they read the current cells.  Accesses to [localStorage] are taken to
    succeed (no quota or security error). *)

Record state : Type := State {
  user : value;                          (* AuthProvider: useState(null) *)
  loading : bool;                        (* AuthProvider: useState(true) *)
  theme : string;                        (* ThemeProvider: useState('light') *)
  localStorage : gmap string string;
  classList : gset string;               (* document.documentElement.classList *)
  network : list (request * api_outcome);(* calls of the API client, oldest first *)
  console : list string                  (* console.error *)
}.

(** The state when the providers mount. *)
Definition mount (storage : gmap string string) (classes : gset string) : state :=
  State VNull true "light" storage classes [] [].

(** A handler: from a state to the state it leaves and its completion.  For
    an [async] handler a [Normal] completion is the value its promise fulfils
    with, a [Throw] completion the rejection of that promise. *)
Definition M (A : Type) : Type := state → state * completion A.

Definition ret {A} (a : A) : M A := fun st => (st, Normal a).

Definition throw {A} (e : error) : M A := fun st => (st, Throw e).

Definition bind {A B} (m : M A) (k : A → M B) : M B :=
  fun st =>
    match m st with
    | (st', Normal a) => k a st'
    | (st', Throw e) => (st', Throw e)
    end.

(** [try { body } catch (error) { handler }] *)
Definition try_catch {A} (body : M A) (handler : error → M A) : M A :=
  fun st =>
    match body st with
    | (st', Normal a) => (st', Normal a)
    | (st', Throw e) => handler e st'
    end.

Declare Scope js_scope.
Delimit Scope js_scope with js.
Notation "x <- m ;; k" := (bind m (fun x => k))
  (at level 100, m at next level, right associativity) : js_scope.
Notation "m ;; k" := (bind m (fun _ => k))
  (at level 100, right associativity) : js_scope.
Open Scope js_scope.

(** *** Primitive effects *)

Definition getUser : M value := fun st => (st, Normal (user st)).

Definition setUser (v : value) : M unit := fun st =>
  (State v (loading st) (theme st) (localStorage st) (classList st)
         (network st) (console st), Normal tt).

Definition setLoading (b : bool) : M unit := fun st =>
  (State (user st) b (theme st) (localStorage st) (classList st)
         (network st) (console st), Normal tt).

Definition getTheme : M string := fun st => (st, Normal (theme st)).

Definition setTheme (t : string) : M unit := fun st =>
  (State (user st) (loading st) t (localStorage st) (classList st)
         (network st) (console st), Normal tt).

Definition with_storage (f : gmap string string → gmap string string) : M unit :=
  fun st =>
    (State (user st) (loading st) (theme st) (f (localStorage st)) (classList st)
           (network st) (console st), Normal tt).

(** [localStorage.getItem(k)]: the stored string, or [null] (here [None]). *)
Definition localStorage_getItem (k : string) : M (option string) :=
  fun st => (st, Normal (localStorage st !! k)).

(** [localStorage.setItem(k, v)] stores [ToString(v)]; the stores pass it a
    string or [undefined], on which the conversion cannot throw. *)
Definition localStorage_setItem (k : string) (v : value) : M unit :=
  with_storage (fun m => <[k := to_string v]> m).

Definition localStorage_removeItem (k : string) : M unit :=
  with_storage (fun m => delete k m).

Definition with_classList (f : gset string → gset string) : M unit :=
  fun st =>
    (State (user st) (loading st) (theme st) (localStorage st) (f (classList st))
           (network st) (console st), Normal tt).

Definition console_error (label : string) : M unit := fun st =>
  (State (user st) (loading st) (theme st) (localStorage st) (classList st)
         (network st) (console st ++ [label]), Normal tt).

(** A property read [v.k]: a [TypeError] when [v] is [null] or [undefined]. *)
Definition member (v : value) (k : string) : M value :=
  if nullish v then throw TypeError else ret (prop v k).

(** [ToString(v)], as a template literal applies it to a substitution. *)
Definition ToString (v : value) : M string :=
  if stringable v then ret (to_string v) else throw TypeError.

(** The failure messages of the session store. *)
Definition msg_login_failed : value := VStr "登录失败".
Definition msg_register_failed : value := VStr "注册失败".
Definition msg_update_failed : value := VStr "更新失败".
Definition msg_password_failed : value := VStr "密码修改失败".
Definition msg_network_error : value := VStr "网络错误，请稍后重试".

(** [error.response?.data?.message] *)
Definition error_message (e : error) : value :=
  opt_prop (opt_prop (err_response e) "data") "message".

(** ** The session store: AuthContext.jsx *)

Section AuthProvider.

(** The browser's [JSON.parse] ([None]: it throws a [SyntaxError]) and
    [JSON.stringify] ([None]: it returns [undefined]). *)
Variable JSON_parse : string → option value.
Variable JSON_stringify : value → option string.

(** The API client of [lib/api]: what each request is answered with. *)
Variable api : request → api_outcome.

Definition parse (s : string) : M value :=
  match JSON_parse s with
  | Some v => ret v
  | None => throw SyntaxError
  end.

(** [JSON.stringify(v)] as a value; on the tree-shaped values of the model
    it does not throw. *)
Definition stringify (v : value) : value :=
  match JSON_stringify v with
  | Some s => VStr s
  | None => VUndefined
  end.

(** [await api.post(path, body)] and [await api.put(path, body)]: the call is
    logged together with its outcome; a rejection is thrown at the [await]. *)
Definition api_call (req : request) : M value := fun st =>
  let st' := State (user st) (loading st) (theme st) (localStorage st)
                   (classList st) (network st ++ [(req, api req)]) (console st) in
  match api req with
  | Resolved response => (st', Normal response)
  | Rejected e => (st', Throw e)
  end.

Definition api_post (path : string) (body : value) : M value :=
  api_call (Request POST path body).

Definition api_put (path : string) (body : value) : M value :=
  api_call (Request PUT path body).

(** The effect run once when the provider mounts. *)
Definition AuthProvider_effect : M unit :=
  savedUser <- localStorage_getItem "user";;
  match savedUser with
  | Some s =>
      if negb (String.eqb s "") then
        try_catch
          (v <- parse s;;
           setUser v)
          (fun error =>
             console_error "Failed to parse saved user:";;
             localStorage_removeItem "user")
      else ret tt
  | None => ret tt
  end;;
  setLoading false.

Definition login (usernameOrEmail password : value) : M value :=
  try_catch
    (response <- api_post "/users/login"
                   (VObj [("username_or_email", usernameOrEmail);
                          ("password", password)]);;
     success <- member response "success";;
     if truthy success then
       userData <- member response "data";;
       setUser userData;;
       localStorage_setItem "user" (stringify userData);;
       ret (VObj [("success", VBool true); ("user", userData)])
     else
       message <- member response "message";;
       ret (VObj [("success", VBool false);
                  ("error", js_or message msg_login_failed)]))
    (fun error =>
       console_error "Login error:";;
       ret (VObj [("success", VBool false);
                  ("error", js_or (error_message error) msg_network_error)])).

Definition register (username email password displayName : value) : M value :=
  try_catch
    (response <- api_post "/users/"
                   (VObj [("username", username);
                          ("email", email);
                          ("password", password);
                          ("display_name", displayName)]);;
     success <- member response "success";;
     if truthy success then
       userData <- member response "data";;
       setUser userData;;
       localStorage_setItem "user" (stringify userData);;
       ret (VObj [("success", VBool true); ("user", userData)])
     else
       message <- member response "message";;
       ret (VObj [("success", VBool false);
                  ("error", js_or message msg_register_failed)]))
    (fun error =>
       console_error "Register error:";;
       ret (VObj [("success", VBool false);
                  ("error", js_or (error_message error) msg_network_error)])).

Definition logout : M unit :=
  setUser VNull;;
  localStorage_removeItem "user".

Definition updateUser (userData : value) : M value :=
  try_catch
    (user <- getUser;;
     id <- member user "id";;
     id_text <- ToString id;;
     response <- api_put ("/users/" ++ id_text) userData;;
     success <- member response "success";;
     if truthy success then
       updatedUser <- member response "data";;
       setUser updatedUser;;
       localStorage_setItem "user" (stringify updatedUser);;
       ret (VObj [("success", VBool true); ("user", updatedUser)])
     else
       message <- member response "message";;
       ret (VObj [("success", VBool false);
                  ("error", js_or message msg_update_failed)]))
    (fun error =>
       console_error "Update user error:";;
       ret (VObj [("success", VBool false);
                  ("error", js_or (error_message error) msg_network_error)])).

Definition changePassword (oldPassword newPassword : value) : M value :=
  try_catch
    (user <- getUser;;
     id <- member user "id";;
     id_text <- ToString id;;
     response <- api_post ("/users/" ++ id_text ++ "/change-password")
                   (VObj [("old_password", oldPassword);
                          ("new_password", newPassword)]);;
     success <- member response "success";;
     if truthy success then
       ret (VObj [("success", VBool true)])
     else
       message <- member response "message";;
       ret (VObj [("success", VBool false);
                  ("error", js_or message msg_password_failed)]))
    (fun error =>
       console_error "Change password error:";;
       ret (VObj [("success", VBool false);
                  ("error", js_or (error_message error) msg_network_error)])).

(** The operations the provider hands to the views through its context. *)
Inductive operation : Type :=
| Login (usernameOrEmail password : value)
| Register (username email password displayName : value)
| UpdateUser (userData : value)
| ChangePassword (oldPassword newPassword : value).

Definition call (op : operation) : M value :=
  match op with
  | Login usernameOrEmail password => login usernameOrEmail password
  | Register username email password displayName =>
      register username email password displayName
  | UpdateUser userData => updateUser userData
  | ChangePassword oldPassword newPassword =>
      changePassword oldPassword newPassword
  end.

End AuthProvider.

(** ** The theme store: ThemeContext.jsx *)

(** [savedTheme || systemTheme], where [savedTheme] is a string or [null]. *)
Definition string_or (saved : option string) (fallback : string) : string :=
  match saved with
  | Some s => if String.eqb s "" then fallback else s
  | None => fallback
  end.

(** The tokens a [DOMTokenList] accepts: not empty, no ASCII white space. *)
Definition ascii_whitespace (c : ascii) : bool :=
  let n := N_of_ascii c in
  ((n =? 9) || (n =? 10) || (n =? 12) || (n =? 13) || (n =? 32))%N.

Definition check_token (token : string) : M unit :=
  if String.eqb token "" then throw (Error "SyntaxError" VUndefined)
  else if existsb ascii_whitespace (list_ascii_of_string token)
       then throw (Error "InvalidCharacterError" VUndefined)
       else ret tt.

Fixpoint check_tokens (tokens : list string) : M unit :=
  match tokens with
  | [] => ret tt
  | token :: rest => check_token token;; check_tokens rest
  end.

(** [classList.remove(...tokens)] and [classList.add(token)] *)
Definition classList_remove (tokens : list string) : M unit :=
  check_tokens tokens;;
  with_classList (fun classes => classes ∖ list_to_set tokens).

Definition classList_add (token : string) : M unit :=
  check_token token;;
  with_classList (fun classes => classes ∪ {[token]}).

Definition updateDocumentTheme (newTheme : string) : M unit :=
  classList_remove ["light"; "dark"];;
  classList_add newTheme.

(** The effect run once when the provider mounts; [prefers_dark] is
    [window.matchMedia('(prefers-color-scheme: dark)').matches]. *)
Definition ThemeProvider_effect (prefers_dark : bool) : M unit :=
  savedTheme <- localStorage_getItem "theme";;
  let systemTheme := if prefers_dark then "dark" else "light" in
  let initialTheme := string_or savedTheme systemTheme in
  setTheme initialTheme;;
  updateDocumentTheme initialTheme.

Definition toggleTheme : M unit :=
  theme <- getTheme;;
  let newTheme := if String.eqb theme "light" then "dark" else "light" in
  setTheme newTheme;;
  localStorage_setItem "theme" (VStr newTheme);;
  updateDocumentTheme newTheme.

Definition setThemeMode (newTheme : string) : M unit :=
  setTheme newTheme;;
  localStorage_setItem "theme" (VStr newTheme);;
  updateDocumentTheme newTheme.

(** [isDark: theme === 'dark'] *)
Definition isDark (st : state) : bool := String.eqb (theme st) "dark".

(** ** The route guards: App.jsx *)

(** What a guard renders: its children, the spinner shown while the session
    store is loading, or [<Navigate to=... replace />]. *)
Inductive element (A : Type) : Type :=
| Children (children : A)
| Spinner
| Navigate (to : string) (replace : bool).
Arguments Children {A} children.
Arguments Spinner {A}.
Arguments Navigate {A} to replace.

Definition ProtectedRoute {A} (children : A) (st : state) : element A :=
  if loading st then Spinner
  else if truthy (user st) then Children children
  else Navigate "/login" true.

Definition PublicRoute {A} (children : A) (st : state) : element A :=
  if loading st then Spinner
  else if truthy (user st) then Navigate "/dashboard" true
  else Children children.

(** ** A reference JSON reader and writer

    Every statement about the session store below holds for an arbitrary
    [JSON.parse] and [JSON.stringify].  To run the stores on concrete inputs
    this module implements both for the JSON texts whose numbers are integers
    (no fraction, no exponent); strings are sequences of bytes, a [\uXXXX]
    escape is stored in its UTF-8 encoding. *)
Module Json.

Definition quote : ascii := "034"%char.
Definition backslash : ascii := "092"%char.

Definition is_ws (c : ascii) : bool :=
  let n := N_of_ascii c in
  ((n =? 32) || (n =? 9) || (n =? 10) || (n =? 13))%N.

Fixpoint skip_ws (s : string) : string :=
  match s with
  | String c rest => if is_ws c then skip_ws rest else s
  | EmptyString => s
  end.

Definition digit (c : ascii) : option N :=
  let n := N_of_ascii c in
  if ((48 <=? n) && (n <=? 57))%N then Some (n - 48)%N else None.

Definition hex (c : ascii) : option N :=
  let n := N_of_ascii c in
  if ((48 <=? n) && (n <=? 57))%N then Some (n - 48)%N
  else if ((65 <=? n) && (n <=? 70))%N then Some (n - 55)%N
  else if ((97 <=? n) && (n <=? 102))%N then Some (n - 87)%N
  else None.

Definition byte (n : N) : ascii := ascii_of_N n.

(** UTF-8 encoding of a code unit below 65536. *)
Definition utf8 (u : N) (tail : string) : string :=
  if (u <? 128)%N then String (byte u) tail
  else if (u <? 2048)%N then
    String (byte (192 + u / 64)) (String (byte (128 + u mod 64)) tail)
  else
    String (byte (224 + u / 4096))
      (String (byte (128 + (u / 64) mod 64))
         (String (byte (128 + u mod 64)) tail)).

(** The characters of a string literal after its opening quote, up to the
    closing one; yields the string and the rest of the input. *)
Fixpoint read_chars (s : string) : option (string * string) :=
  match s with
  | EmptyString => None
  | String c rest =>
      if Ascii.eqb c quote then Some ("", rest)
      else if Ascii.eqb c backslash then
        match rest with
        | String e rest1 =>
            let simple (ch : N) :=
              '(str, r) ← read_chars rest1; Some (String (byte ch) str, r) in
            match N_of_ascii e with
            | 34%N => simple 34%N
            | 92%N => simple 92%N
            | 47%N => simple 47%N
            | 98%N => simple 8%N
            | 102%N => simple 12%N
            | 110%N => simple 10%N
            | 114%N => simple 13%N
            | 116%N => simple 9%N
            | 117%N =>
                match rest1 with
                | String h1 (String h2 (String h3 (String h4 rest2))) =>
                    a ← hex h1; b ← hex h2; c ← hex h3; d ← hex h4;
                    '(str, r) ← read_chars rest2;
                    Some (utf8 (((a * 16 + b) * 16 + c) * 16 + d)%N str, r)
                | _ => None
                end
            | _ => None
            end
        | EmptyString => None
        end
      else if (N_of_ascii c <? 32)%N then None
      else '(str, r) ← read_chars rest; Some (String c str, r)
  end.

Fixpoint read_digits (acc : N) (s : string) : N * string :=
  match s with
  | String c rest =>
      match digit c with
      | Some d => read_digits (acc * 10 + d)%N rest
      | None => (acc, s)
      end
  | EmptyString => (acc, s)
  end.

(** [0], or a non-empty digit sequence without a leading zero; a fraction or
    an exponent after it is outside the fragment. *)
Definition read_natural (s : string) : option (N * string) :=
  match s with
  | String c rest =>
      match digit c with
      | Some 0%N => Some (0%N, rest)
      | Some d => Some (read_digits d rest)
      | None => None
      end
  | EmptyString => None
  end.

Definition integer_ends (s : string) : bool :=
  match s with
  | String c _ =>
      let n := N_of_ascii c in
      negb ((n =? 46) || (n =? 101) || (n =? 69) || ((48 <=? n) && (n <=? 57)))%N
  | EmptyString => true
  end.

Definition read_number (s : string) : option (value * string) :=
  match s with
  | String c rest =>
      if (N_of_ascii c =? 45)%N then
        '(n, r) ← read_natural rest;
        if integer_ends r then Some (VNum (- Z.of_N n), r) else None
      else
        '(n, r) ← read_natural s;
        if integer_ends r then Some (VNum (Z.of_N n), r) else None
  | EmptyString => None
  end.

Definition read_keyword (kw : string) (v : value) (s : string)
  : option (value * string) :=
  if String.prefix kw s
  then Some (v, String.substring (String.length kw)
                                 (String.length s - String.length kw) s)
  else None.

(** Defining a property: a repeated name keeps its place and takes the new
    value. *)
Fixpoint define (k : string) (v : value) (props : list (string * value))
  : list (string * value) :=
  match props with
  | [] => [(k, v)]
  | (k', v') :: rest =>
      if String.eqb k k' then (k, v) :: rest else (k', v') :: define k v rest
  end.

Fixpoint read_value (fuel : nat) (s : string) : option (value * string) :=
  match fuel with
  | O => None
  | S fuel =>
      match skip_ws s with
      | EmptyString => None
      | String c rest as s' =>
          match N_of_ascii c with
          | 110%N => read_keyword "null" VNull s'
          | 116%N => read_keyword "true" (VBool true) s'
          | 102%N => read_keyword "false" (VBool false) s'
          | 34%N => '(str, r) ← read_chars rest; Some (VStr str, r)
          | 91%N =>
              match skip_ws rest with
              | String c1 r1 as rest' =>
                  if (N_of_ascii c1 =? 93)%N then Some (VArr [], r1)
                  else '(items, r) ← read_items fuel rest'; Some (VArr items, r)
              | EmptyString => None
              end
          | 123%N =>
              match skip_ws rest with
              | String c1 r1 as rest' =>
                  if (N_of_ascii c1 =? 125)%N then Some (VObj [], r1)
                  else '(props, r) ← read_props fuel [] rest'; Some (VObj props, r)
              | EmptyString => None
              end
          | _ => read_number s'
          end
      end
  end
with read_items (fuel : nat) (s : string) : option (list value * string) :=
  match fuel with
  | O => None
  | S fuel =>
      '(v, r) ← read_value fuel s;
      match skip_ws r with
      | String c r1 =>
          if (N_of_ascii c =? 93)%N then Some ([v], r1)
          else if (N_of_ascii c =? 44)%N then
            '(vs, r2) ← read_items fuel r1; Some (v :: vs, r2)
          else None
      | EmptyString => None
      end
  end
with read_props (fuel : nat) (acc : list (string * value)) (s : string)
  : option (list (string * value) * string) :=
  match fuel with
  | O => None
  | S fuel =>
      match skip_ws s with
      | String c rest =>
          if Ascii.eqb c quote then
            '(k, r) ← read_chars rest;
            match skip_ws r with
            | String c1 r1 =>
                if (N_of_ascii c1 =? 58)%N then
                  '(v, r2) ← read_value fuel r1;
                  let acc' := define k v acc in
                  match skip_ws r2 with
                  | String c2 r3 =>
                      if (N_of_ascii c2 =? 125)%N then Some (acc', r3)
                      else if (N_of_ascii c2 =? 44)%N then read_props fuel acc' r3
                      else None
                  | EmptyString => None
                  end
                else None
            | EmptyString => None
            end
          else None
      | EmptyString => None
      end
  end.

(** [JSON.parse]: one value, surrounded by white space only. *)
Definition parse (s : string) : option value :=
  '(v, r) ← read_value (2 * String.length s + 2) s;
  match skip_ws r with
  | EmptyString => Some v
  | String _ _ => None
  end.

(** *** The writer *)

Definition hex_digit (n : N) : ascii :=
  if (n <? 10)%N then byte (48 + n) else byte (87 + n).

Fixpoint write_chars (s : string) : string :=
  match s with
  | EmptyString => ""
  | String c rest =>
      let n := N_of_ascii c in
      let escaped (e : ascii) := String backslash (String e (write_chars rest)) in
      if (n =? 34)%N then escaped quote
      else if (n =? 92)%N then escaped backslash
      else if (n =? 8)%N then escaped "b"%char
      else if (n =? 12)%N then escaped "f"%char
      else if (n =? 10)%N then escaped "n"%char
      else if (n =? 13)%N then escaped "r"%char
      else if (n =? 9)%N then escaped "t"%char
      else if (n <? 32)%N then
        String backslash
          ("u00" ++ String (hex_digit (n / 16))
                      (String (hex_digit (n mod 16)) (write_chars rest)))
      else String c (write_chars rest)
  end.

Definition write_string (s : string) : string :=
  String quote (write_chars s ++ String quote "").

(** The text of a value; [None] stands for [undefined], which [JSON.stringify]
    yields for [undefined] itself, writes as [null] inside an array and
    leaves out of an object. *)
Fixpoint write (v : value) : option string :=
  match v with
  | VUndefined => None
  | VNull => Some "null"
  | VBool true => Some "true"
  | VBool false => Some "false"
  | VNum n =>
      Some (if (1024 <=? Z.log2 (nearest_double (Z.abs n)))%Z then "null"
            else number_to_string n)
  | VStr s => Some (write_string s)
  | VArr items =>
      Some ("[" ++ String.concat "," (map (fun x => default "null" (write x)) items)
                ++ "]")
  | VObj props =>
      let fix members (ps : list (string * value)) : list string :=
        match ps with
        | [] => []
        | (k, x) :: rest =>
            match write x with
            | Some t => (write_string k ++ ":" ++ t) :: members rest
            | None => members rest
            end
        end in
      Some ("{" ++ String.concat "," (members props) ++ "}")
  end.

(** [JSON.stringify] *)
Definition stringify : value → option string := write.

End Json.

(** ** Result envelopes *)

Definition success_with (u : value) : value :=
  VObj [("success", VBool true); ("user", u)].

Definition success_flag : value := VObj [("success", VBool true)].

Definition failure (message : value) : value :=
  VObj [("success", VBool false); ("error", message)].

(** The fallback strings of the session store. *)
Definition generic_messages : list value :=
  [msg_login_failed; msg_register_failed; msg_update_failed;
   msg_password_failed; msg_network_error].

(** The message of the server's response, read off the outcome of the call
    itself.  A call the client resolved carries the response envelope: its
    message is the envelope's [message].  A call the client rejected carries
    an error; when the server answered, the HTTP response is attached to it
    and the envelope is the body ([data]) of that response.  Where there is
    no envelope, or no [message] in it, there is no message ([undefined]). *)
Definition server_message (o : api_outcome) : value :=
  match o with
  | Resolved (VObj envelope) => default VUndefined (assoc "message" envelope)
  | Rejected (Error _ (VObj http)) =>
      match assoc "data" http with
      | Some (VObj envelope) => default VUndefined (assoc "message" envelope)
      | _ => VUndefined
      end
  | _ => VUndefined
  end.

(** [exchanged st st' req o]: between [st] and [st'] exactly one call of the
    API client was made, the request [req], and its outcome was [o]. *)
Definition exchanged (st st' : state) (req : request) (o : api_outcome) : Prop :=
  network st' = (network st ++ [(req, o)])%list.

(** [answered st st' response]: between [st] and [st'] one call of the API
    client was made and the client resolved to [response]. *)
Definition answered (st st' : state) (response : value) : Prop :=
  ∃ req, exchanged st st' req (Resolved response).

(** No call of the API client between [st] and [st']. *)
Definition silent (st st' : state) : Prop := network st' = network st.

(** A success envelope: [{success: true, user}] or the bare [{success: true}]. *)
Definition success_envelope (result : value) : Prop :=
  (∃ u, result = success_with u) ∨ result = success_flag.

(** Where the message of a failure envelope comes from: it is the message the
    call's outcome carries when that is available (truthy), and one of the
    fallback strings when it is not, or when no call was made. *)
Definition message_source (st st' : state) (message : value) : Prop :=
  (∃ req o, exchanged st st' req o ∧
            truthy (server_message o) = true ∧ message = server_message o)
  ∨ (message ∈ generic_messages ∧
     ∀ req o, exchanged st st' req o → truthy (server_message o) = false).

(** The theme preference: an enumeration of two values.  The store holds a
    preference as its name, in the [theme] cell as under the [theme] key. *)
Inductive preference : Type := Light | Dark.

Definition preference_name (p : preference) : string :=
  match p with
  | Light => "light"
  | Dark => "dark"
  end.

Definition opposite (p : preference) : preference :=
  match p with
  | Light => Dark
  | Dark => Light
  end.

(** The strings that name a preference. *)
Definition theme_value (t : string) : Prop := t = "light" ∨ t = "dark".

(** The class list after [updateDocumentTheme t]. *)
Definition themed (classes : gset string) (t : string) : gset string :=
  classes ∖ list_to_set ["light"; "dark"] ∪ {[t]}.

Definition stored_theme_wf (storage : gmap string string) : Prop :=
  ∀ v, storage !! "theme" = Some v → theme_value v.

Definition theme_store_wf (st : state) : Prop :=
  theme_value (theme st) ∧ stored_theme_wf (localStorage st).

(** An identity is an object.  The session store holds [null] while nobody
    is signed in; whatever else it holds it has adopted as the current
    identity, so an identity is present when [user] is not [null]. *)
Definition identity (v : value) : Prop := ∃ props, v = VObj props.

Definition identity_present (st : state) : Prop := user st ≠ VNull.

(** ** Concrete inputs *)

Definition quoted (s : string) : string :=
  String Json.quote (s ++ String Json.quote "").

(** The identity [{"id":1,"username":"alice"}] and its JSON text. *)
Definition alice : value := VObj [("id", VNum 1); ("username", VStr "alice")].

Definition alice_text : string :=
  "{" ++ quoted "id" ++ ":1," ++ quoted "username" ++ ":" ++ quoted "alice" ++ "}".

(** A server that accepts every request and answers with [alice]. *)
Definition accepting : request → api_outcome :=
  fun _ => Resolved (VObj [("success", VBool true); ("data", alice)]).

(** A server that rejects every request with [{success: false, message}]. *)
Definition rejecting : request → api_outcome :=
  fun _ => Resolved (VObj [("success", VBool false);
                           ("message", VStr "bad credentials")]).

(** Nobody signed in, nothing stored. *)
Definition signed_out : state := mount ∅ ∅.

(** [alice] signed in. *)
Definition signed_in : state :=
  State alice false "light" {["user" := alice_text]} ∅ [] [].

(** ** Text as JavaScript sees it

    A string of the model is the UTF-8 encoding of a JavaScript string;
    JavaScript counts and matches its UTF-16 code units. *)

Definition continuation (c : ascii) : N := (N_of_ascii c mod 64)%N.

(** The UTF-16 code units of a string; a four-byte sequence gives a
    surrogate pair. *)
Fixpoint code_units (s : string) : list N :=
  match s with
  | EmptyString => []
  | String a r =>
      let n := N_of_ascii a in
      if (n <? 192)%N then n :: code_units r
      else if (n <? 224)%N then
        match r with
        | String b r1 => ((n - 192) * 64 + continuation b)%N :: code_units r1
        | EmptyString => [n]
        end
      else if (n <? 240)%N then
        match r with
        | String b (String c r2) =>
            ((n - 224) * 4096 + continuation b * 64 + continuation c)%N
              :: code_units r2
        | _ => n :: code_units r
        end
      else
        match r with
        | String b (String c (String d r3)) =>
            let cp := ((n - 240) * 262144 + continuation b * 4096
                       + continuation c * 64 + continuation d - 65536)%N in
            (55296 + cp / 1024)%N :: (56320 + cp mod 1024)%N :: code_units r3
        | _ => n :: code_units r
        end
  end.

(** [s.length] *)
Definition js_length (s : string) : nat := length (code_units s).

(** The code units [\s] matches: white space and line terminators. *)
Definition white_space (u : N) : bool :=
  ((u =? 9) || (u =? 10) || (u =? 11) || (u =? 12) || (u =? 13) || (u =? 32)
   || (u =? 160) || (u =? 5760) || ((8192 <=? u) && (u <=? 8202))
   || (u =? 8232) || (u =? 8233) || (u =? 8239) || (u =? 8287)
   || (u =? 12288) || (u =? 65279))%N.

(** [[a-zA-Z]] and [\d] *)
Definition ascii_letter (u : N) : bool :=
  (((97 <=? u) && (u <=? 122)) || ((65 <=? u) && (u <=? 90)))%N.

Definition ascii_digit (u : N) : bool := ((48 <=? u) && (u <=? 57))%N.

(** [[^\s@]] *)
Definition not_space_or_at (u : N) : bool := negb (white_space u || (u =? 64)%N).

(** *** Regular expressions

    The patterns of the source use character classes, literals, sequence
    and [+]; whether such a pattern has a match is decided by derivatives. *)
Inductive regex : Type :=
| Never
| Eps
| Class (p : N → bool)
| Cat (r1 r2 : regex)
| Alt (r1 r2 : regex)
| Star (r : regex).

Definition Plus (r : regex) : regex := Cat r (Star r).

Definition Lit (u : N) : regex := Class (N.eqb u).

Fixpoint nullable (r : regex) : bool :=
  match r with
  | Never => false
  | Eps => true
  | Class _ => false
  | Cat r1 r2 => nullable r1 && nullable r2
  | Alt r1 r2 => nullable r1 || nullable r2
  | Star _ => true
  end.

Fixpoint deriv (a : N) (r : regex) : regex :=
  match r with
  | Never => Never
  | Eps => Never
  | Class p => if p a then Eps else Never
  | Cat r1 r2 =>
      if nullable r1 then Alt (Cat (deriv a r1) r2) (deriv a r2)
      else Cat (deriv a r1) r2
  | Alt r1 r2 => Alt (deriv a r1) (deriv a r2)
  | Star r1 => Cat (deriv a r1) (Star r1)
  end.

Fixpoint matches (r : regex) (w : list N) : bool :=
  match w with
  | [] => nullable r
  | a :: w' => matches (deriv a r) w'
  end.

(** [/^r$/.test(s)]: the pattern matches the whole string. *)
Definition test_whole (r : regex) (s : string) : bool :=
  matches r (code_units s).

(** [/r/.test(s)]: the pattern matches somewhere in the string. *)
Definition test_anywhere (r : regex) (s : string) : bool :=
  matches (Cat (Star (Class (fun _ => true)))
               (Cat r (Star (Class (fun _ => true))))) (code_units s).

(** The words a pattern matches. *)
Inductive lang : regex → list N → Prop :=
| lang_eps : lang Eps []
| lang_class p a : p a = true → lang (Class p) [a]
| lang_cat r1 r2 w1 w2 : lang r1 w1 → lang r2 w2 → lang (Cat r1 r2) (w1 ++ w2)
| lang_alt_l r1 r2 w : lang r1 w → lang (Alt r1 r2) w
| lang_alt_r r1 r2 w : lang r2 w → lang (Alt r1 r2) w
| lang_star_nil r : lang (Star r) []
| lang_star_cons r w1 w2 :
    lang r w1 → lang (Star r) w2 → lang (Star r) (w1 ++ w2).

(** ** Component-local state

    A page keeps state cells of its own next to the stores.  Its handlers
    act on the pair of the state of the stores and the cells of the page. *)
Definition P (S A : Type) : Type := state * S → (state * S) * completion A.

Definition pret {S A} (a : A) : P S A := fun s => (s, Normal a).

Definition pbind {S A B} (m : P S A) (k : A → P S B) : P S B :=
  fun s =>
    match m s with
    | (s', Normal a) => k a s'
    | (s', Throw e) => (s', Throw e)
    end.

(** A call into a store. *)
Definition lift {S A} (m : M A) : P S A :=
  fun s =>
    match m s.1 with
    | (st', c) => ((st', s.2), c)
    end.

(** Reading the cells of the page, as of the render the handler belongs to,
    and a state setter. *)
Definition cells {S} : P S S := fun s => (s, Normal s.2).

Definition update {S} (f : S → S) : P S unit :=
  fun s => ((s.1, f s.2), Normal tt).

(** [try { body } catch (err) { handler } finally { final }] *)
Definition try_catch_finally {S A} (body : P S A) (handler : error → P S A)
    (final : P S unit) : P S A :=
  fun s =>
    let after :=
      match body s with
      | (s', Normal a) => (s', Normal a)
      | (s', Throw e) => handler e s'
      end in
    match final after.1 with
    | (s'', Normal _) => (s'', after.2)
    | (s'', Throw e) => (s'', Throw e)
    end.

Declare Scope page_scope.
Delimit Scope page_scope with page.
Notation "x <- m ;; k" := (pbind m (fun x => k))
  (at level 100, m at next level, right associativity) : page_scope.
Notation "m ;; k" := (pbind m (fun _ => k))
  (at level 100, right associativity) : page_scope.

(** ** The login page: pages/Login.jsx *)

Module LoginPage.

Record form : Type := Form { usernameOrEmail : string; password : string }.

Record page : Type := Page {
  formData : form;          (* useState({usernameOrEmail: '', password: ''}) *)
  showPassword : bool;      (* useState(false) *)
  loading : bool;           (* useState(false) *)
  error : value;            (* useState('') *)
  navigations : list string (* calls of navigate, oldest first *)
}.

Definition initial : page := Page (Form "" "") false false (VStr "") [].

(** The inputs whose [onChange] is [handleChange], by their [name]. *)
Inductive input : Type := usernameOrEmail_input | password_input.

Definition setFormData (f : form → form) : P page unit :=
  update (fun pg => Page (f (formData pg)) (showPassword pg) (loading pg)
                         (error pg) (navigations pg)).

Definition setLoading (b : bool) : P page unit :=
  update (fun pg => Page (formData pg) (showPassword pg) b (error pg)
                         (navigations pg)).

Definition setError (v : value) : P page unit :=
  update (fun pg => Page (formData pg) (showPassword pg) (loading pg) v
                         (navigations pg)).

Definition navigate (to : string) : P page unit :=
  update (fun pg => Page (formData pg) (showPassword pg) (loading pg) (error pg)
                         (navigations pg ++ [to])).

Definition handleChange (name : input) (value : string) : P page unit :=
  (setFormData (fun prev =>
     match name with
     | usernameOrEmail_input => Form value (password prev)
     | password_input => Form (usernameOrEmail prev) value
     end);;
   pg <- cells;;
   if truthy (error pg) then setError (VStr "") else pret tt)%page.

Section Handlers.

Variable JSON_stringify : value → option string.
Variable api : request → api_outcome.

Definition handleSubmit : P page unit :=
  (pg <- cells;;
   let formData := formData pg in
   if String.eqb (usernameOrEmail formData) ""
      || String.eqb (password formData) ""
   then setError (VStr "请填写所有必填字段")
   else
     setLoading true;;
     setError (VStr "");;
     try_catch_finally
       (result <- lift (login JSON_stringify api
                          (VStr (usernameOrEmail formData))
                          (VStr (password formData)));;
        success <- lift (member result "success");;
        if truthy success then navigate "/dashboard"
        else
          message <- lift (member result "error");;
          setError message)
       (fun err => setError (VStr "登录失败，请稍后重试"))
       (setLoading false))%page.

End Handlers.

End LoginPage.

(** ** The registration page: pages/Register.jsx *)

Module RegisterPage.

Record form : Type := Form {
  username : string;
  email : string;
  password : string;
  confirmPassword : string;
  displayName : string
}.

Record validation : Type := Validation {
  length : bool;
  hasLetter : bool;
  hasNumber : bool
}.

Record page : Type := Page {
  formData : form;
  showPassword : bool;
  showConfirmPassword : bool;
  loading : bool;
  error : value;
  passwordValidation : validation;
  navigations : list string
}.

Definition initial : page :=
  Page (Form "" "" "" "" "") false false false (VStr "")
       (Validation false false false) [].

Inductive input : Type :=
| username_input
| email_input
| displayName_input
| password_input
| confirmPassword_input.

Definition setFormData (f : form → form) : P page unit :=
  update (fun pg => Page (f (formData pg)) (showPassword pg)
                         (showConfirmPassword pg) (loading pg) (error pg)
                         (passwordValidation pg) (navigations pg)).

Definition setLoading (b : bool) : P page unit :=
  update (fun pg => Page (formData pg) (showPassword pg)
                         (showConfirmPassword pg) b (error pg)
                         (passwordValidation pg) (navigations pg)).

Definition setError (v : value) : P page unit :=
  update (fun pg => Page (formData pg) (showPassword pg)
                         (showConfirmPassword pg) (loading pg) v
                         (passwordValidation pg) (navigations pg)).

Definition setPasswordValidation (v : validation) : P page unit :=
  update (fun pg => Page (formData pg) (showPassword pg)
                         (showConfirmPassword pg) (loading pg) (error pg)
                         v (navigations pg)).

Definition navigate (to : string) : P page unit :=
  update (fun pg => Page (formData pg) (showPassword pg)
                         (showConfirmPassword pg) (loading pg) (error pg)
                         (passwordValidation pg) (navigations pg ++ [to])).

(** [/^[^\s@]+@[^\s@]+\.[^\s@]+$/] *)
Definition emailRegex : regex :=
  Cat (Plus (Class not_space_or_at))
    (Cat (Lit 64)
       (Cat (Plus (Class not_space_or_at))
          (Cat (Lit 46) (Plus (Class not_space_or_at))))).

(** The three checks of a password. *)
Definition check (password : string) : validation :=
  Validation (6 <=? js_length password)%nat
             (test_anywhere (Class ascii_letter) password)
             (test_anywhere (Class ascii_digit) password).

(** [Object.values(validation).every(Boolean)] *)
Definition every (v : validation) : bool := length v && hasLetter v && hasNumber v.

Definition validatePassword (password : string) : P page bool :=
  (let validation := check password in
   setPasswordValidation validation;;
   pret (every validation))%page.

Definition handleChange (name : input) (value : string) : P page unit :=
  (setFormData (fun prev =>
     match name with
     | username_input =>
         Form value (email prev) (password prev) (confirmPassword prev)
              (displayName prev)
     | email_input =>
         Form (username prev) value (password prev) (confirmPassword prev)
              (displayName prev)
     | password_input =>
         Form (username prev) (email prev) value (confirmPassword prev)
              (displayName prev)
     | confirmPassword_input =>
         Form (username prev) (email prev) (password prev) value
              (displayName prev)
     | displayName_input =>
         Form (username prev) (email prev) (password prev)
              (confirmPassword prev) value
     end);;
   match name with
   | password_input => validatePassword value;; pret tt
   | _ => pret tt
   end;;
   pg <- cells;;
   if truthy (error pg) then setError (VStr "") else pret tt)%page.

Section Handlers.

Variable JSON_stringify : value → option string.
Variable api : request → api_outcome.

Definition handleSubmit : P page unit :=
  (pg <- cells;;
   let formData := formData pg in
   if String.eqb (username formData) "" || String.eqb (email formData) ""
      || String.eqb (password formData) ""
   then setError (VStr "请填写所有必填字段")
   else if (js_length (username formData) <? 3)%nat
   then setError (VStr "用户名至少需要3个字符")
   else if negb (test_whole emailRegex (email formData))
   then setError (VStr "请输入有效的邮箱地址")
   else
     valid <- validatePassword (password formData);;
     if negb valid then setError (VStr "密码不符合要求")
     else if negb (String.eqb (password formData) (confirmPassword formData))
     then setError (VStr "两次输入的密码不一致")
     else
       setLoading true;;
       setError (VStr "");;
       try_catch_finally
         (result <- lift (register JSON_stringify api
                            (VStr (username formData))
                            (VStr (email formData))
                            (VStr (password formData))
                            (js_or (VStr (displayName formData))
                                   (VStr (username formData))));;
          success <- lift (member result "success");;
          if truthy success then navigate "/dashboard"
          else
            message <- lift (member result "error");;
            setError message)
         (fun err => setError (VStr "注册失败，请稍后重试"))
         (setLoading false))%page.

End Handlers.

End RegisterPage.

(** ** The profile page: pages/Profile.jsx *)

Module ProfilePage.

Record profile : Type := Profile {
  username : value;
  email : value;
  display_name : value;
  bio : value
}.

Record passwords : Type := Passwords {
  oldPassword : string;
  newPassword : string;
  confirmPassword : string
}.

Record notice : Type := Notice { type : string; content : value }.

Record page : Type := Page {
  isEditing : bool;             (* useState(false) *)
  isChangingPassword : bool;    (* useState(false) *)
  loading : bool;               (* useState(false) *)
  message : notice;             (* useState({ type: '', content: '' }) *)
  profileData : profile;
  passwordData : passwords
}.

(** [{ username: user?.username || '', ... }] *)
Definition from_user (user : value) : profile :=
  Profile (js_or (opt_prop user "username") (VStr ""))
          (js_or (opt_prop user "email") (VStr ""))
          (js_or (opt_prop user "display_name") (VStr ""))
          (js_or (opt_prop user "bio") (VStr "")).

(** The cells when the page mounts with [user] as the identity. *)
Definition initial (user : value) : page :=
  Page false false false (Notice "" (VStr "")) (from_user user)
       (Passwords "" "" "").

(** The object [profileData] as it is passed to updateUser. *)
Definition profile_object (p : profile) : value :=
  VObj [("username", username p); ("email", email p);
        ("display_name", display_name p); ("bio", bio p)].

Definition setIsEditing (b : bool) : P page unit :=
  update (fun pg => Page b (isChangingPassword pg) (loading pg) (message pg)
                         (profileData pg) (passwordData pg)).

Definition setIsChangingPassword (b : bool) : P page unit :=
  update (fun pg => Page (isEditing pg) b (loading pg) (message pg)
                         (profileData pg) (passwordData pg)).

Definition setLoading (b : bool) : P page unit :=
  update (fun pg => Page (isEditing pg) (isChangingPassword pg) b (message pg)
                         (profileData pg) (passwordData pg)).

Definition setMessage (m : notice) : P page unit :=
  update (fun pg => Page (isEditing pg) (isChangingPassword pg) (loading pg) m
                         (profileData pg) (passwordData pg)).

Definition setProfileData (p : profile) : P page unit :=
  update (fun pg => Page (isEditing pg) (isChangingPassword pg) (loading pg)
                         (message pg) p (passwordData pg)).

Definition setPasswordData (p : passwords) : P page unit :=
  update (fun pg => Page (isEditing pg) (isChangingPassword pg) (loading pg)
                         (message pg) (profileData pg) p).

Definition handleCancelEdit : P page unit :=
  (user <- lift getUser;;
   setProfileData (from_user user);;
   setIsEditing false;;
   setMessage (Notice "" (VStr "")))%page.

Definition handleCancelPasswordChange : P page unit :=
  (setPasswordData (Passwords "" "" "");;
   setIsChangingPassword false;;
   setMessage (Notice "" (VStr "")))%page.

Section Handlers.

Variable JSON_stringify : value → option string.
Variable api : request → api_outcome.

Definition handleProfileUpdate : P page unit :=
  (pg <- cells;;
   setLoading true;;
   setMessage (Notice "" (VStr ""));;
   try_catch_finally
     (result <- lift (updateUser JSON_stringify api
                        (profile_object (profileData pg)));;
      success <- lift (member result "success");;
      if truthy success then
        setMessage (Notice "success" (VStr "个人信息更新成功！"));;
        setIsEditing false
      else
        message <- lift (member result "error");;
        setMessage (Notice "error" message))
     (fun error => setMessage (Notice "error" (VStr "更新失败，请稍后重试")))
     (setLoading false))%page.

Definition handlePasswordChange : P page unit :=
  (pg <- cells;;
   let passwordData := passwordData pg in
   if negb (String.eqb (newPassword passwordData)
                       (confirmPassword passwordData))
   then setMessage (Notice "error" (VStr "两次输入的新密码不一致"))
   else if (js_length (newPassword passwordData) <? 6)%nat
   then setMessage (Notice "error" (VStr "新密码至少需要6个字符"))
   else
     setLoading true;;
     setMessage (Notice "" (VStr ""));;
     try_catch_finally
       (result <- lift (changePassword api
                          (VStr (oldPassword passwordData))
                          (VStr (newPassword passwordData)));;
        success <- lift (member result "success");;
        if truthy success then
          setMessage (Notice "success" (VStr "密码修改成功！"));;
          setIsChangingPassword false;;
          setPasswordData (Passwords "" "" "")
        else
          message <- lift (member result "error");;
          setMessage (Notice "error" message))
       (fun error => setMessage (Notice "error" (VStr "密码修改失败，请稍后重试")))
       (setLoading false))%page.

End Handlers.

End ProfilePage.

(** ** The layout: components/Layout.jsx *)

Module LayoutView.

Record page : Type := Page {
  sidebarOpen : bool;        (* useState(false) *)
  navigations : list string  (* calls of navigate, oldest first *)
}.

Definition navigate (to : string) : P page unit :=
  update (fun pg => Page (sidebarOpen pg) (navigations pg ++ [to])).

Definition handleLogout : P page unit :=
  (lift logout;;
   navigate "/login")%page.

End LayoutView.

(** ** The prompt editor: pages/PromptEditor.jsx *)

(** [s.trimStart()]: without the white space and line terminators [s]
    starts with; the characters are read off the UTF-8 bytes. *)
Fixpoint trim_start (s : string) : string :=
  match s with
  | EmptyString => s
  | String a r =>
      let n := N_of_ascii a in
      if (n <? 128)%N then
        (if white_space n then trim_start r else s)
      else if ((192 <=? n) && (n <? 224))%N then
        match r with
        | String b r1 =>
            if white_space ((n - 192) * 64 + continuation b)%N
            then trim_start r1 else s
        | EmptyString => s
        end
      else if ((224 <=? n) && (n <? 240))%N then
        match r with
        | String b (String c r2) =>
            if white_space ((n - 224) * 4096 + continuation b * 64
                            + continuation c)%N
            then trim_start r2 else s
        | _ => s
        end
      else s
  end.

(** [s.trimEnd()] *)
Fixpoint trim_end (s : string) : string :=
  match s with
  | EmptyString => EmptyString
  | String a r =>
      let n := N_of_ascii a in
      if (n <? 192)%N then
        let t := trim_end r in
        if (n <? 128)%N && white_space n && String.eqb t ""
        then EmptyString else String a t
      else if (n <? 224)%N then
        match r with
        | String b r1 =>
            let t := trim_end r1 in
            if white_space ((n - 192) * 64 + continuation b)%N
               && String.eqb t ""
            then EmptyString else String a (String b t)
        | EmptyString => s
        end
      else if (n <? 240)%N then
        match r with
        | String b (String c r2) =>
            let t := trim_end r2 in
            if white_space ((n - 224) * 4096 + continuation b * 64
                            + continuation c)%N
               && String.eqb t ""
            then EmptyString else String a (String b (String c t))
        | _ => String a (trim_end r)
        end
      else
        match r with
        | String b (String c (String d r3)) =>
            String a (String b (String c (String d (trim_end r3))))
        | _ => String a (trim_end r)
        end
  end.

(** [s.trim()] *)
Definition trim (s : string) : string := trim_end (trim_start s).

Module PromptEditor.

Record variable : Type := Variable_ {
  name : string;
  variable_description : string;
  required : bool
}.

Record prompt : Type := Prompt {
  title : string;
  description : string;
  content : string;
  tags : list string;
  category : string;
  is_public : bool;
  variables : list variable
}.

Record page : Type := Page {
  prompt_ : prompt;        (* the cell [prompt] *)
  loading : bool;          (* useState(false) *)
  saving : bool;           (* useState(false) *)
  previewMode : bool;      (* useState(false) *)
  newTag : string          (* useState('') *)
}.

Definition initial : page :=
  Page (Prompt "" "" "" [] "" false []) false false false "".

(** [Boolean(id && id !== 'new')], [id] being the route parameter. *)
Definition isEditing (id : option string) : bool :=
  match id with
  | Some s => negb (String.eqb s "") && negb (String.eqb s "new")
  | None => false
  end.

Definition setPrompt (f : prompt → prompt) : P page unit :=
  update (fun pg => Page (f (prompt_ pg)) (loading pg) (saving pg)
                         (previewMode pg) (newTag pg)).

Definition setNewTag (s : string) : P page unit :=
  update (fun pg => Page (prompt_ pg) (loading pg) (saving pg)
                         (previewMode pg) s).

Definition with_tags (f : list string → list string) (prev : prompt) : prompt :=
  Prompt (title prev) (description prev) (content prev) (f (tags prev))
         (category prev) (is_public prev) (variables prev).

(** [array.includes(s)] on an array of strings *)
Definition includes (l : list string) (s : string) : bool :=
  existsb (String.eqb s) l.

Definition addTag : P page unit :=
  (pg <- cells;;
   if negb (String.eqb (trim (newTag pg)) "")
      && negb (includes (tags (prompt_ pg)) (trim (newTag pg)))
   then
     setPrompt (with_tags (fun tags => (tags ++ [trim (newTag pg)])%list));;
     setNewTag ""
   else pret tt)%page.

Definition removeTag (tagToRemove : string) : P page unit :=
  setPrompt (with_tags
               (List.filter (fun tag => negb (String.eqb tag tagToRemove)))).

(** The name of the exported file: [`${prompt.title || 'prompt'}.json`]. *)
Definition export_name (p : prompt) : string :=
  (if String.eqb (title p) "" then "prompt" else title p) ++ ".json".

End PromptEditor.

(** ** Concrete pages *)

(** The login form filled in, and with the password left out. *)
Definition login_filled : LoginPage.page :=
  LoginPage.Page (LoginPage.Form "alice" "secret") false false (VStr "") [].

Definition login_incomplete : LoginPage.page :=
  LoginPage.Page (LoginPage.Form "alice" "") false false (VStr "") [].

(** The registration form filled in acceptably, the display name left out;
    the indicator shows the checks of the password. *)
Definition register_filled : RegisterPage.page :=
  RegisterPage.Page
    (RegisterPage.Form "alice" "alice@example.org" "secret1" "secret1" "")
    false false false (VStr "") (RegisterPage.Validation true true true) [].

(** The profile page of [alice], a new password typed twice. *)
Definition profile_passwords : ProfilePage.page :=
  ProfilePage.Page false true false (ProfilePage.Notice "" (VStr ""))
    (ProfilePage.from_user alice) (ProfilePage.Passwords "secret" "secret1" "secret1").

(** The editor holding one tag, a second one typed with spaces around it. *)
Definition editor_typing : PromptEditor.page :=
  PromptEditor.Page (PromptEditor.Prompt "" "" "" ["ai"] "" false [])
                    false false false " seo ".

Definition editor_duplicate : PromptEditor.page :=
  PromptEditor.Page (PromptEditor.Prompt "" "" "" ["ai"] "" false [])
                    false false false "ai ".

(** An identity that consists of an id, held past loading. *)
Definition signed_in_as (id : value) : state :=
  State (VObj [("id", id)]) false "light" ∅ ∅ [] [].

(** ** Properties *)

Lemma app_singleton_neq {A} (l : list A) (x : A) : l ≠ (l ++ [x])%list.
Proof.
  intros H. apply (f_equal length) in H. rewrite length_app in H. simpl in H. lia.
Qed.

Lemma exchanged_inj st st' req o req' o' :
  network st' = (network st ++ [(req, o)])%list →
  exchanged st st' req' o' → req' = req ∧ o' = o.
Proof.
  unfold exchanged. intros -> H. apply app_inj_tail in H as [_ H].
  by inversion H.
Qed.

Lemma not_exchanged st st' req o :
  network st' = network st → ¬ exchanged st st' req o.
Proof. unfold exchanged. intros -> H. by apply app_singleton_neq in H. Qed.

Ltac unfold_js :=
  unfold try_catch, bind, ret, throw, member, api_post, api_put, api_call,
    ToString, getUser, setUser, setLoading, getTheme, setTheme,
    localStorage_getItem,
    localStorage_setItem, localStorage_removeItem, with_storage,
    with_classList, console_error, parse, updateDocumentTheme,
    classList_remove, classList_add, check_tokens, check_token in *.

Ltac unfold_store :=
  unfold call, login, register, updateUser, changePassword, logout,
    AuthProvider_effect, stringify in *.

(** Runs a handler symbolically: splits on the outcome of the API call, on
    whether a value read from is nullish and on each truthiness test, and
    reads the final state and completion off the resulting equation. *)
Ltac run_handler H :=
  unfold_js; simpl in H;
  repeat (match type of H with
          | context [match ?api ?req with Resolved _ => _ | Rejected _ => _ end] =>
              destruct (api req) eqn:?
          | context [if nullish ?v then _ else _] => destruct (nullish v) eqn:?
          | context [if stringable ?v then _ else _] =>
              destruct (stringable v) eqn:?
          | context [if truthy ?v then _ else _] => destruct (truthy v) eqn:?
          end; simpl in H);
  injection H as <- <-; simpl in *.

(** Identifies the exchange a hypothesis speaks of with the one the handler
    logged. *)
Ltac same_exchange :=
  repeat match goal with
         | H : answered _ _ _ |- _ => destruct H as [? H]
         | H : exchanged _ _ _ _ |- _ =>
             first [ eapply exchanged_inj in H; [| simpl; reflexivity];
                     destruct H as [-> H]; simplify_eq
                   | exfalso; revert H; apply not_exchanged; reflexivity ]
         end.

Lemma success_true_not_nullish response :
  prop response "success" = VBool true → nullish response = false.
Proof. by destruct response. Qed.

Lemma success_false_not_nullish response :
  prop response "success" = VBool false → nullish response = false.
Proof. by destruct response. Qed.

Section SessionProperties.

Variable JSON_parse : string → option value.
Variable JSON_stringify : value → option string.
Variable api : request → api_outcome.

Local Abbreviation login := (login JSON_stringify api).
Local Abbreviation register := (register JSON_stringify api).
Local Abbreviation updateUser := (updateUser JSON_stringify api).
Local Abbreviation changePassword := (changePassword api).
Local Abbreviation call := (call JSON_stringify api).
Local Abbreviation stringify := (stringify JSON_stringify).
Local Abbreviation AuthProvider_effect := (AuthProvider_effect JSON_parse).

(** C1. A login call whose API response has [success: true] leaves the
    response's [data] as the current identity, stores the JSON text of it
    under the key [user], and returns the success envelope carrying it. *)
Theorem login_success (usernameOrEmail password : value) (st st' : state)
    (result : completion value) (response : value) :
  login usernameOrEmail password st = (st', result) →
  answered st st' response →
  prop response "success" = VBool true →
  user st' = prop response "data" ∧
  localStorage st' !! "user" = Some (to_string (stringify (prop response "data"))) ∧
  (∀ text, JSON_stringify (prop response "data") = Some text →
           localStorage st' !! "user" = Some text) ∧
  result = Normal (success_with (prop response "data")).
Proof.
  intros Hrun Hanswer Hsuccess.
  pose proof (success_true_not_nullish _ Hsuccess) as Hobj.
  unfold_store. run_handler Hrun; same_exchange.
  - congruence.
  - rewrite lookup_insert_eq. split_and!; try done.
    intros text Htext. unfold_store. by rewrite Htext.
  - rewrite Hsuccess in *. discriminate.
Qed.

(** C2. A login, register or updateUser call whose API response has
    [success: false] changes neither the current identity nor the stored
    [user] key (nor any other key). *)
Theorem failure_changes_nothing (op : operation) (st st' : state)
    (result : completion value) (response : value) :
  call op st = (st', result) →
  answered st st' response →
  prop response "success" = VBool false →
  user st' = user st ∧
  localStorage st' !! "user" = localStorage st !! "user" ∧
  localStorage st' = localStorage st.
Proof.
  intros Hrun Hanswer Hsuccess.
  pose proof (success_false_not_nullish _ Hsuccess) as Hobj.
  destruct op; unfold_store;
    run_handler Hrun; same_exchange; try done;
    rewrite Hsuccess in *; discriminate.
Qed.

(** The message of the server's response is what the handlers read:
    [response.message] after a resolved call, [error.response?.data?.message]
    in the [catch] block. *)
Lemma server_message_resolved (response : value) :
  server_message (Resolved response) = opt_prop response "message".
Proof. by destruct response. Qed.

Lemma server_message_rejected (e : error) :
  server_message (Rejected e) = error_message e.
Proof.
  destruct e as [name [| | | | | |http]]; try done.
  unfold error_message, opt_prop. simpl.
  destruct (assoc "data" http) as [[| | | | | |envelope]|]; done.
Qed.

(** C5. Whatever the API client does, no operation of the session store
    throws: it returns a success envelope or [{success: false, error}], where
    [error] is the message of the server's response when there is one and a
    fallback string otherwise. *)
Theorem operations_never_throw (op : operation) (st : state) :
  ∃ st' result,
    call op st = (st', Normal result) ∧
    (success_envelope result ∨
     ∃ message, result = failure message ∧ message_source st st' message).
Proof.
  destruct (call op st) as [st' c] eqn:Hrun.
  destruct op; unfold_store;
    run_handler Hrun.
  all: eexists _, _; split; [reflexivity |].
  all: try (left; left; by eexists).
  all: try (by left; right).
  all: right; eexists; split; [reflexivity |].
  all: unfold message_source, js_or.
  all: match goal with
       | |- context [if truthy ?m then _ else _] =>
           destruct (truthy m) eqn:Hmessage
       | _ => idtac
       end.
  all: first
    [ left; eexists _, _; split; [unfold exchanged; simpl; reflexivity |];
      rewrite ?server_message_resolved, ?server_message_rejected;
      unfold opt_prop;
      repeat match goal with H : nullish _ = _ |- _ => rewrite H end;
      by split
    | right; split; [unfold generic_messages; set_solver |];
      intros req o Hexchange; same_exchange;
      rewrite ?server_message_resolved, ?server_message_rejected;
      unfold opt_prop;
      repeat match goal with H : nullish _ = _ |- _ => rewrite H end;
      done ].
Qed.

(** C9. A changePassword call whose API response has [success: true]
    returns the bare success flag and changes neither the current identity
    nor the stored [user] key (nor any other key). *)
Theorem changePassword_success (oldPassword newPassword : value)
    (st st' : state) (result : completion value) (response : value) :
  changePassword oldPassword newPassword st = (st', result) →
  answered st st' response →
  prop response "success" = VBool true →
  result = Normal success_flag ∧
  user st' = user st ∧
  localStorage st' !! "user" = localStorage st !! "user" ∧
  localStorage st' = localStorage st.
Proof.
  intros Hrun Hanswer Hsuccess.
  pose proof (success_true_not_nullish _ Hsuccess) as Hobj.
  unfold_store.
  run_handler Hrun; same_exchange; try done;
    first [congruence | rewrite Hsuccess in *; discriminate].
Qed.

(** C10. updateUser called while no identity is held does not throw: the
    read of [user.id] faults inside the [try], the call returns the failure
    envelope with the network fallback message, the identity stays absent,
    the storage is untouched and no request is sent. *)
Theorem updateUser_without_identity (userData : value) (st : state) :
  user st = VNull →
  ∃ st',
    updateUser userData st = (st', Normal (failure msg_network_error)) ∧
    user st' = VNull ∧
    localStorage st' = localStorage st ∧
    silent st st'.
Proof.
  intros Hnull.
  destruct (updateUser userData st) as [st' c] eqn:Hrun.
  unfold_store. unfold_js. simpl in Hrun.
  rewrite Hnull in Hrun. simpl in Hrun.
  injection Hrun as <- <-. by eexists.
Qed.

(** C3. From every state logout completes normally, leaves no current
    identity and no [user] key in storage, keeps every other key, and calls
    the API client not at all. *)
Theorem logout_clears (st : state) :
  ∃ st',
    logout st = (st', Normal tt) ∧
    user st' = VNull ∧
    localStorage st' !! "user" = None ∧
    (∀ k, k ≠ "user" → localStorage st' !! k = localStorage st !! k) ∧
    silent st st'.
Proof.
  eexists. split; [reflexivity |]. simpl. split_and!; try done.
  - apply lookup_delete_eq.
  - intros k Hk. by apply lookup_delete_ne.
Qed.

(** What the mount effect does when the stored text is empty: the [if
    (savedUser)] test fails, so nothing is parsed and nothing removed. *)
Lemma AuthProvider_effect_empty (storage : gmap string string)
    (classes : gset string) :
  storage !! "user" = Some "" →
  ∃ st',
    AuthProvider_effect (mount storage classes) = (st', Normal tt) ∧
    user st' = VNull ∧ loading st' = false ∧ localStorage st' = storage.
Proof.
  intros Hstored. unfold_store. unfold_js. simpl.
  rewrite Hstored. simpl. by eexists.
Qed.

(** C4, as the code has it. With a non-empty text stored under [user], the
    mount effect completes normally with the loading flag cleared; when the
    text does not parse there is no current identity afterwards and the key
    is removed; when it parses the parsed value is the current identity. *)
Theorem AuthProvider_effect_stored (storage : gmap string string)
    (classes : gset string) (s : string) :
  storage !! "user" = Some s →
  s ≠ "" →
  ∃ st',
    AuthProvider_effect (mount storage classes) = (st', Normal tt) ∧
    loading st' = false ∧
    (JSON_parse s = None →
     user st' = VNull ∧ localStorage st' !! "user" = None) ∧
    (∀ v, JSON_parse s = Some v →
          user st' = v ∧ localStorage st' = storage).
Proof.
  intros Hstored Hne. apply String.eqb_neq in Hne.
  unfold_store. unfold_js. simpl.
  rewrite Hstored. simpl. rewrite Hne. simpl.
  destruct (JSON_parse s) as [v|]; simpl; eexists; split_and!; try done.
  - intros v' [= <-]. done.
  - intros _. split; [done |]. apply lookup_delete_eq.
Qed.

End SessionProperties.

(** ** Properties of the theme store *)

Lemma toggleTheme_run (st : state) :
  ∃ st',
    toggleTheme st = (st', Normal tt) ∧
    theme st' = (if String.eqb (theme st) "light" then "dark" else "light") ∧
    localStorage st' = <["theme" := theme st']> (localStorage st) ∧
    classList st' = themed (classList st) (theme st') ∧
    user st' = user st ∧ loading st' = loading st ∧ silent st st'.
Proof.
  unfold toggleTheme. unfold_js. simpl.
  destruct (String.eqb (theme st) "light"); simpl; by eexists.
Qed.

(** Whatever the theme was, after a toggle it is one of the two values. *)
Lemma toggleTheme_theme_value (st st' : state) :
  toggleTheme st = (st', Normal tt) → theme_value (theme st').
Proof.
  destruct (toggleTheme_run st) as (st1 & Hrun & Htheme & _).
  rewrite Hrun. intros [= <-]. rewrite Htheme. unfold theme_value.
  destruct (String.eqb (theme st) "light"); auto.
Qed.

(** From a string that is neither of the two values the first toggle goes to
    ["light"], the second to ["dark"]. *)
Lemma toggleTheme_twice_other (st : state) :
  ¬ theme_value (theme st) →
  ∃ st1 st2,
    toggleTheme st = (st1, Normal tt) ∧
    toggleTheme st1 = (st2, Normal tt) ∧
    theme st1 = "light" ∧ theme st2 = "dark".
Proof.
  intros Hother.
  destruct (toggleTheme_run st) as (st1 & Hrun1 & Htheme1 & _).
  destruct (toggleTheme_run st1) as (st2 & Hrun2 & Htheme2 & _).
  exists st1, st2.
  destruct (String.eqb (theme st) "light") eqn:Hlight.
  - apply String.eqb_eq in Hlight. destruct Hother. by left.
  - rewrite Htheme2, Htheme1. by split_and!.
Qed.

Lemma theme_value_name (t : string) :
  theme_value t ↔ ∃ p, t = preference_name p.
Proof.
  split.
  - intros [-> | ->]; [by exists Light | by exists Dark].
  - intros [[] ->]; [by left | by right].
Qed.

(** C7, as the code has it. For each of the two theme preferences: when it
    is the current theme, a toggle moves the theme to the opposite preference
    and a second toggle brings it back. *)
Theorem toggleTheme_twice (p : preference) (st : state) :
  theme st = preference_name p →
  ∃ st1 st2,
    toggleTheme st = (st1, Normal tt) ∧
    toggleTheme st1 = (st2, Normal tt) ∧
    theme st1 = preference_name (opposite p) ∧
    theme st2 = preference_name p.
Proof.
  intros Hcurrent.
  destruct (toggleTheme_run st) as (st1 & Hrun1 & Htheme1 & _).
  destruct (toggleTheme_run st1) as (st2 & Hrun2 & Htheme2 & _).
  exists st1, st2. rewrite Htheme2, Htheme1, Hcurrent.
  by destruct p.
Qed.

(** C8, as the code has it. The theme mount effect run with nothing (or the
    empty string) stored under [theme] adopts the environment's preference
    and puts it on the class list of the document; run with a non-empty
    stored value it adopts that value. *)
Theorem ThemeProvider_effect_resolves (prefers_dark : bool) (st : state) :
  let systemTheme := if prefers_dark then "dark" else "light" in
  (localStorage st !! "theme" = None ∨ localStorage st !! "theme" = Some "" →
   ∃ st',
     ThemeProvider_effect prefers_dark st = (st', Normal tt) ∧
     theme st' = systemTheme ∧
     classList st' = themed (classList st) systemTheme) ∧
  (∀ v, localStorage st !! "theme" = Some v → v ≠ "" →
        theme (ThemeProvider_effect prefers_dark st).1 = v).
Proof.
  intros systemTheme. split.
  - intros Hstored. unfold ThemeProvider_effect. unfold_js. simpl.
    destruct Hstored as [-> | ->]; simpl; subst systemTheme;
      destruct prefers_dark; simpl; by eexists.
  - intros v Hstored Hne. apply String.eqb_neq in Hne.
    unfold ThemeProvider_effect. unfold_js. simpl.
    rewrite Hstored. simpl. rewrite Hne.
    repeat match goal with
           | |- context [if ?b then _ else _] => destruct b; simpl
           end; done.
Qed.

(** ** Properties of the route guards *)

(** What the guards test is the truthiness of [user]: an identity object
    passes it, [null] does not. *)
Lemma route_guards_test {A : Type} (children : A) (st : state) :
  loading st = false →
  ProtectedRoute children st =
    (if truthy (user st) then Children children else Navigate "/login" true) ∧
  PublicRoute children st =
    (if truthy (user st) then Navigate "/dashboard" true else Children children).
Proof. unfold ProtectedRoute, PublicRoute. by intros ->. Qed.

Lemma identity_truthy (v : value) : identity v → truthy v = true.
Proof. by intros [props ->]. Qed.

(** C6, as the code has it. While the session store is loading both guards
    render the spinner.  Once it is not, the protected guard renders its
    children exactly when [user] is truthy and otherwise navigates to
    [/login]; the public guard navigates to [/dashboard] exactly when [user]
    is truthy and otherwise renders its children.  Every identity object is
    truthy and [null] is not. *)
Theorem route_guards {A : Type} (children : A) (st : state) :
  (loading st = true →
   ProtectedRoute children st = Spinner ∧ PublicRoute children st = Spinner) ∧
  (loading st = false →
   (ProtectedRoute children st = Children children ↔ truthy (user st) = true) ∧
   (truthy (user st) = false →
    ProtectedRoute children st = Navigate "/login" true) ∧
   (PublicRoute children st = Navigate "/dashboard" true
    ↔ truthy (user st) = true) ∧
   (truthy (user st) = false → PublicRoute children st = Children children)) ∧
  (identity (user st) → truthy (user st) = true) ∧
  (user st = VNull → truthy (user st) = false).
Proof.
  unfold ProtectedRoute, PublicRoute. split_and!.
  - by intros ->.
  - intros ->. destruct (truthy (user st)); by split_and!.
  - apply identity_truthy.
  - by intros ->.
Qed.

(** ** The invariant of the theme store

    The theme is one of the two theme values, and so is whatever is stored
    under [theme].  The mount effect establishes it from a storage that
    satisfies it, and the two operations of the store keep it. *)

Lemma updateDocumentTheme_theme_value (t : string) (st : state) :
  theme_value t →
  updateDocumentTheme t st =
    (State (user st) (loading st) (theme st) (localStorage st)
           (themed (classList st) t) (network st) (console st), Normal tt).
Proof. intros [-> | ->]; reflexivity. Qed.

Lemma ThemeProvider_effect_wf (prefers_dark : bool) (st st' : state) :
  stored_theme_wf (localStorage st) →
  ThemeProvider_effect prefers_dark st = (st', Normal tt) →
  theme_store_wf st'.
Proof.
  intros Hwf. unfold ThemeProvider_effect. unfold_js. simpl.
  assert (theme_value
            (string_or (localStorage st !! "theme")
                       (if prefers_dark then "dark" else "light"))) as Hvalue.
  { unfold string_or. destruct (localStorage st !! "theme") as [v|] eqn:Hstored.
    - destruct (String.eqb v "") eqn:Hempty.
      + unfold theme_value. destruct prefers_dark; auto.
      + by apply Hwf.
    - unfold theme_value. destruct prefers_dark; auto. }
  destruct Hvalue as [-> | ->]; simpl; intros [= <-]; split; simpl;
    unfold theme_value; auto.
Qed.

Lemma toggleTheme_wf (st st' : state) :
  toggleTheme st = (st', Normal tt) → theme_store_wf st'.
Proof.
  intros Hrun. split; [by eapply toggleTheme_theme_value |].
  destruct (toggleTheme_run st) as (st1 & Hrun1 & Htheme & Hstorage & _).
  rewrite Hrun1 in Hrun. injection Hrun as <-.
  intros v. rewrite Hstorage, lookup_insert_eq. intros [= <-].
  rewrite Htheme. unfold theme_value.
  destruct (String.eqb (theme st) "light"); auto.
Qed.

Lemma setThemeMode_wf (newTheme : string) (st st' : state) :
  theme_value newTheme →
  setThemeMode newTheme st = (st', Normal tt) → theme_store_wf st'.
Proof.
  intros Hvalue. unfold setThemeMode. unfold_js. simpl.
  destruct Hvalue as [-> | ->]; simpl; intros [= <-]; split; simpl.
  all: try (unfold theme_value; by auto).
  all: intros v; rewrite lookup_insert_eq; intros [= <-]; unfold theme_value; auto.
Qed.

(** ** The stores on concrete inputs *)

Example parse_alice : Json.parse alice_text = Some alice.
Proof. reflexivity. Qed.

Example stringify_alice : Json.stringify alice = Some alice_text.
Proof. reflexivity. Qed.

(** Scenario: the text of [alice] is stored at startup; after the mount effect
    the current identity is [alice] and the loading flag is cleared. *)
Example startup_with_stored_identity :
  let st' := (AuthProvider_effect Json.parse (mount {["user" := alice_text]} ∅)).1 in
  user st' = alice ∧ loading st' = false.
Proof. split; reflexivity. Qed.

(** Scenario: [login("alice", "wrong")] against the rejecting server. *)
Example login_bad_credentials :
  ∃ st',
    login Json.stringify rejecting (VStr "alice") (VStr "wrong") signed_out
    = (st', Normal (failure (VStr "bad credentials"))) ∧
    user st' = VNull.
Proof. eexists. split; reflexivity. Qed.

(** Scenario: nothing stored, the environment prefers dark. *)
Example startup_prefers_dark :
  theme (ThemeProvider_effect true signed_out).1 = "dark".
Proof. reflexivity. Qed.

(** C1 at [login("alice", "secret")] against the accepting server. *)
Lemma login_success_witness :
  let response := VObj [("success", VBool true); ("data", alice)] in
  let run := login Json.stringify accepting (VStr "alice") (VStr "secret") signed_out in
  answered signed_out run.1 response ∧
  prop response "success" = VBool true ∧
  user run.1 = alice ∧
  localStorage run.1 !! "user" = Some alice_text ∧
  run.2 = Normal (success_with alice).
Proof.
  intros response run.
  assert (answered signed_out run.1 response) as Hanswer
    by (eexists; reflexivity).
  split; [exact Hanswer |]. split; [reflexivity |].
  destruct (login_success Json.stringify accepting (VStr "alice") (VStr "secret")
              signed_out run.1 run.2 response eq_refl Hanswer eq_refl)
    as (Huser & _ & Htext & Hresult).
  split_and!; [exact Huser | exact (Htext alice_text eq_refl) | exact Hresult].
Defined.

(** C2 at a rejected login, a rejected registration and a rejected profile
    update. *)
Lemma failure_changes_nothing_witness :
  let response := VObj [("success", VBool false);
                        ("message", VStr "bad credentials")] in
  let op1 := Login (VStr "alice") (VStr "wrong") in
  let op2 := Register (VStr "alice") (VStr "alice@example.org")
                      (VStr "secret") (VStr "Alice") in
  let op3 := UpdateUser (VObj [("display_name", VStr "Alice")]) in
  let run1 := call Json.stringify rejecting op1 signed_out in
  let run2 := call Json.stringify rejecting op2 signed_out in
  let run3 := call Json.stringify rejecting op3 signed_in in
  prop response "success" = VBool false ∧
  (answered signed_out run1.1 response ∧
   user run1.1 = VNull ∧ localStorage run1.1 !! "user" = None) ∧
  (answered signed_out run2.1 response ∧
   user run2.1 = VNull ∧ localStorage run2.1 !! "user" = None) ∧
  (answered signed_in run3.1 response ∧
   user run3.1 = alice ∧ localStorage run3.1 !! "user" = Some alice_text).
Proof.
  intros response op1 op2 op3 run1 run2 run3.
  assert (answered signed_out run1.1 response) as H1 by (eexists; reflexivity).
  assert (answered signed_out run2.1 response) as H2 by (eexists; reflexivity).
  assert (answered signed_in run3.1 response) as H3 by (eexists; reflexivity).
  pose proof (failure_changes_nothing Json.stringify rejecting op1 signed_out
                run1.1 run1.2 response eq_refl H1 eq_refl) as (U1 & K1 & _).
  pose proof (failure_changes_nothing Json.stringify rejecting op2 signed_out
                run2.1 run2.2 response eq_refl H2 eq_refl) as (U2 & K2 & _).
  pose proof (failure_changes_nothing Json.stringify rejecting op3 signed_in
                run3.1 run3.2 response eq_refl H3 eq_refl) as (U3 & K3 & _).
  split; [reflexivity |].
  split_and!; [exact H1 | exact U1 | exact K1 | exact H2 | exact U2 | exact K2
              | exact H3 | exact U3 | exact K3].
Defined.

(** C9 at a password change of [alice] against the accepting server. *)
Lemma changePassword_success_witness :
  let response := VObj [("success", VBool true); ("data", alice)] in
  let run := changePassword accepting (VStr "secret") (VStr "new secret") signed_in in
  answered signed_in run.1 response ∧
  prop response "success" = VBool true ∧
  run.2 = Normal success_flag ∧
  user run.1 = alice ∧
  localStorage run.1 !! "user" = Some alice_text.
Proof.
  intros response run.
  assert (answered signed_in run.1 response) as Hanswer by (eexists; reflexivity).
  split; [exact Hanswer |]. split; [reflexivity |].
  destruct (changePassword_success accepting (VStr "secret") (VStr "new secret")
              signed_in run.1 run.2 response eq_refl Hanswer eq_refl)
    as (Hresult & Huser & Hkey & _).
  split_and!; [exact Hresult | exact Huser | exact Hkey].
Defined.

(** C10 at a profile update attempted while signed out. *)
Lemma updateUser_without_identity_witness :
  user signed_out = VNull ∧
  ∃ st',
    updateUser Json.stringify accepting (VObj [("display_name", VStr "Alice")])
      signed_out
    = (st', Normal (failure msg_network_error)) ∧
    user st' = VNull ∧
    localStorage st' = localStorage signed_out ∧
    silent signed_out st'.
Proof.
  split; [reflexivity |].
  exact (updateUser_without_identity Json.stringify accepting
           (VObj [("display_name", VStr "Alice")]) signed_out eq_refl).
Defined.

(** C4 at a truncated text, which does not parse, and at the text of
    [alice], which does. *)
Lemma AuthProvider_effect_stored_witness :
  let corrupt : gmap string string := {["user" := "{bad"]} in
  let intact : gmap string string := {["user" := alice_text]} in
  ("{bad" ≠ "" ∧ Json.parse "{bad" = None ∧
   ∃ st',
     AuthProvider_effect Json.parse (mount corrupt ∅) = (st', Normal tt) ∧
     loading st' = false ∧ user st' = VNull ∧ localStorage st' !! "user" = None) ∧
  (alice_text ≠ "" ∧ Json.parse alice_text = Some alice ∧
   ∃ st',
     AuthProvider_effect Json.parse (mount intact ∅) = (st', Normal tt) ∧
     loading st' = false ∧ user st' = alice).
Proof.
  intros corrupt intact. split.
  - assert ("{bad" ≠ "") as Hne by discriminate.
    split; [exact Hne |]. split; [reflexivity |].
    destruct (AuthProvider_effect_stored Json.parse corrupt ∅ "{bad" eq_refl Hne)
      as (st' & Hrun & Hloading & Hcorrupt & _).
    exists st'. destruct (Hcorrupt eq_refl) as [Huser Hkey]. by split_and!.
  - assert (alice_text ≠ "") as Hne by discriminate.
    split; [exact Hne |]. split; [reflexivity |].
    destruct (AuthProvider_effect_stored Json.parse intact ∅ alice_text eq_refl Hne)
      as (st' & Hrun & Hloading & _ & Hintact).
    exists st'. destruct (Hintact alice eq_refl) as [Huser _]. by split_and!.
Defined.

(** C4, counterexample. The empty string is stored under [user]: it does not
    parse, yet after the mount effect the key is still there. *)
Lemma AuthProvider_effect_counterexample :
  ¬ (∀ (storage : gmap string string) (s : string),
       storage !! "user" = Some s →
       Json.parse s = None →
       localStorage (AuthProvider_effect Json.parse (mount storage ∅)).1 !! "user"
       = None).
Proof.
  intros Hclaim.
  specialize (Hclaim {["user" := ""]} "" eq_refl eq_refl).
  vm_compute in Hclaim. discriminate.
Qed.

(** C7 at the state the provider mounts in, whose theme is ["light"]. *)
Lemma toggleTheme_twice_witness :
  theme signed_out = preference_name Light ∧
  ∃ st1 st2,
    toggleTheme signed_out = (st1, Normal tt) ∧
    toggleTheme st1 = (st2, Normal tt) ∧
    theme st1 = "dark" ∧
    theme st2 = "light".
Proof.
  split; [reflexivity |].
  exact (toggleTheme_twice Light signed_out eq_refl).
Defined.

(** C8 at an empty storage and at a stored ["dark"], the environment
    preferring dark in the first case and light in the second. *)
Lemma ThemeProvider_effect_resolves_witness :
  let stored := State VNull true "light" {["theme" := "dark"]} ∅ [] [] in
  (localStorage signed_out !! "theme" = None ∧
   ∃ st',
     ThemeProvider_effect true signed_out = (st', Normal tt) ∧
     theme st' = "dark" ∧ classList st' = themed ∅ "dark") ∧
  (localStorage stored !! "theme" = Some "dark" ∧ "dark" ≠ "" ∧
   theme (ThemeProvider_effect false stored).1 = "dark").
Proof.
  intros stored. split.
  - split; [reflexivity |].
    exact (proj1 (ThemeProvider_effect_resolves true signed_out)
             (or_introl eq_refl)).
  - assert ("dark" ≠ "") as Hne by discriminate.
    split; [reflexivity |]. split; [exact Hne |].
    exact (proj2 (ThemeProvider_effect_resolves false stored) "dark" eq_refl Hne).
Defined.

(** C8, counterexample. The empty string is stored under [theme] and the
    environment prefers dark: the stored value exists, yet the theme after
    the mount effect is ["dark"]. *)
Lemma ThemeProvider_effect_counterexample :
  ¬ (∀ (prefers_dark : bool) (st : state) (v : string),
       localStorage st !! "theme" = Some v →
       theme (ThemeProvider_effect prefers_dark st).1 = v).
Proof.
  intros Hclaim.
  specialize (Hclaim true (mount {["theme" := ""]} ∅) "" eq_refl).
  vm_compute in Hclaim. discriminate.
Qed.

(** C7, counterexample. The name [blue] is stored under [theme]; the mount
    effect adopts it as the current theme, and two toggles later the theme
    is ["dark"]. *)
Lemma toggleTheme_twice_counterexample :
  ¬ (∀ st : state, theme (toggleTheme (toggleTheme st).1).1 = theme st).
Proof.
  intros Hclaim.
  specialize (Hclaim (ThemeProvider_effect false (mount {["theme" := "blue"]} ∅)).1).
  vm_compute in Hclaim. discriminate.
Qed.

(** C6 at the signed-out and the signed-in state, both past loading, and at
    the state the provider mounts in. *)
Lemma route_guards_witness :
  let resolved := State VNull false "light" ∅ ∅ [] [] in
  (loading resolved = false ∧ user resolved = VNull ∧
   ProtectedRoute "Layout" resolved = Navigate "/login" true ∧
   PublicRoute "Login" resolved = Children "Login") ∧
  (loading signed_in = false ∧ identity (user signed_in) ∧
   ProtectedRoute "Layout" signed_in = Children "Layout" ∧
   PublicRoute "Login" signed_in = Navigate "/dashboard" true) ∧
  (loading signed_out = true ∧
   ProtectedRoute "Layout" signed_out = Spinner ∧
   PublicRoute "Login" signed_out = Spinner).
Proof.
  intros resolved.
  assert (identity (user signed_in)) as Hidentity by (eexists; reflexivity).
  pose proof (route_guards "Layout" resolved)
    as (_ & Hprotected1 & _ & Hnull).
  pose proof (route_guards "Login" resolved) as (_ & Hpublic1 & _).
  pose proof (route_guards "Layout" signed_in)
    as (_ & Hprotected2 & Htruthy & _).
  pose proof (route_guards "Login" signed_in) as (_ & Hpublic2 & _).
  pose proof (route_guards "Layout" signed_out) as (Hprotected3 & _).
  pose proof (route_guards "Login" signed_out) as (Hpublic3 & _).
  split_and!;
    [ reflexivity | reflexivity
    | exact (proj1 (proj2 (Hprotected1 eq_refl)) (Hnull eq_refl))
    | exact (proj2 (proj2 (proj2 (Hpublic1 eq_refl))) (Hnull eq_refl))
    | reflexivity | exact Hidentity
    | exact (proj2 (proj1 (Hprotected2 eq_refl)) (Htruthy Hidentity))
    | exact (proj2 (proj1 (proj2 (proj2 (Hpublic2 eq_refl)))) (Htruthy Hidentity))
    | reflexivity
    | exact (proj1 (Hprotected3 eq_refl))
    | exact (proj2 (Hpublic3 eq_refl)) ].
Defined.

(** C6, counterexample. The text [0] is stored under [user]: the mount
    effect adopts the number as the current identity, which is then present,
    yet the protected guard navigates to [/login].  Read the other way, with
    an identity being an object: the text [5] is stored, no identity object
    is held, yet the protected guard renders its children. *)
Lemma route_guards_counterexample :
  ¬ (∀ st : state,
       loading st = false →
       (ProtectedRoute "Layout" st = Children "Layout" ↔ identity_present st)) ∧
  ¬ (∀ st : state,
       loading st = false →
       (ProtectedRoute "Layout" st = Children "Layout" ↔ identity (user st))).
Proof.
  split; intros Hclaim.
  - specialize (Hclaim (AuthProvider_effect Json.parse (mount {["user" := "0"]} ∅)).1
                       eq_refl).
    assert (identity_present
              (AuthProvider_effect Json.parse (mount {["user" := "0"]} ∅)).1)
      as Hpresent by (vm_compute; discriminate).
    apply Hclaim in Hpresent. vm_compute in Hpresent. discriminate.
  - specialize (Hclaim (AuthProvider_effect Json.parse (mount {["user" := "5"]} ∅)).1
                       eq_refl).
    assert (ProtectedRoute "Layout"
              (AuthProvider_effect Json.parse (mount {["user" := "5"]} ∅)).1
            = Children "Layout") as Hrendered by reflexivity.
    apply Hclaim in Hrendered. destruct Hrendered as [props Hobject].
    vm_compute in Hobject. discriminate.
Qed.

(** ** Further properties of the session store *)

Section SessionStore.

Variable JSON_parse : string → option value.
Variable JSON_stringify : value → option string.
Variable api : request → api_outcome.

Local Abbreviation login := (login JSON_stringify api).
Local Abbreviation register := (register JSON_stringify api).
Local Abbreviation updateUser := (updateUser JSON_stringify api).
Local Abbreviation changePassword := (changePassword api).
Local Abbreviation call := (call JSON_stringify api).
Local Abbreviation stringify := (stringify JSON_stringify).
Local Abbreviation AuthProvider_effect := (AuthProvider_effect JSON_parse).

(** X1. A registration whose API response has [success: true] signs the new
    user in: the response's [data] becomes the current identity, its JSON text
    is stored under [user], and the success envelope carries it. *)
Theorem register_success (username email password displayName : value)
    (st st' : state) (result : completion value) (response : value) :
  register username email password displayName st = (st', result) →
  answered st st' response →
  prop response "success" = VBool true →
  user st' = prop response "data" ∧
  localStorage st' !! "user" = Some (to_string (stringify (prop response "data"))) ∧
  result = Normal (success_with (prop response "data")).
Proof.
  intros Hrun Hanswer Hsuccess.
  pose proof (success_true_not_nullish _ Hsuccess) as Hobj.
  unfold_store. run_handler Hrun; same_exchange.
  - congruence.
  - by rewrite lookup_insert_eq.
  - rewrite Hsuccess in *. discriminate.
Qed.

(** X2. A profile update whose API response has [success: true] was sent as
    a PUT to [/users/<id>], the id being the text of the id of the identity
    held before the call, with the caller's fields as body; afterwards the response's [data]
    has replaced that identity as a whole, whatever it held, and its JSON
    text is stored under [user]. *)
Theorem updateUser_success (userData : value) (st st' : state)
    (result : completion value) (req : request) (response : value) :
  updateUser userData st = (st', result) →
  exchanged st st' req (Resolved response) →
  prop response "success" = VBool true →
  req = Request PUT ("/users/" ++ to_string (prop (user st) "id")) userData ∧
  user st' = prop response "data" ∧
  localStorage st' !! "user" = Some (to_string (stringify (prop response "data"))) ∧
  result = Normal (success_with (prop response "data")).
Proof.
  intros Hrun Hexchange Hsuccess.
  pose proof (success_true_not_nullish _ Hsuccess) as Hobj.
  unfold_store. run_handler Hrun; same_exchange.
  - congruence.
  - by rewrite lookup_insert_eq.
  - rewrite Hsuccess in *. discriminate.
Qed.

(** X3. Whatever the API client answers, and whether or not an identity is
    held, changePassword leaves the current identity and the whole storage as
    they were. *)
Theorem changePassword_changes_nothing (oldPassword newPassword : value)
    (st : state) :
  user (changePassword oldPassword newPassword st).1 = user st ∧
  localStorage (changePassword oldPassword newPassword st).1 = localStorage st.
Proof.
  destruct (changePassword oldPassword newPassword st) as [st' c] eqn:Hrun.
  unfold_store. run_handler Hrun; done.
Qed.

(** X4. No operation retries: a call sends at most one request.  login and
    register always send exactly one, to [/users/login] and [/users/] with
    the credentials as given; updateUser and changePassword send one, to the
    path built from the text of the held identity's id, when [user] is
    neither [null] nor [undefined] and its id has a text, and none when
    reading [user.id] or converting it to text throws. *)
Theorem one_request_per_call (st : state) :
  (∀ usernameOrEmail password,
     let req := Request POST "/users/login"
                  (VObj [("username_or_email", usernameOrEmail);
                         ("password", password)]) in
     network (login usernameOrEmail password st).1
     = (network st ++ [(req, api req)])%list) ∧
  (∀ username email password displayName,
     let req := Request POST "/users/"
                  (VObj [("username", username); ("email", email);
                         ("password", password);
                         ("display_name", displayName)]) in
     network (register username email password displayName st).1
     = (network st ++ [(req, api req)])%list) ∧
  (∀ userData,
     let req := Request PUT ("/users/" ++ to_string (prop (user st) "id"))
                  userData in
     network (updateUser userData st).1
     = if nullish (user st) || negb (stringable (prop (user st) "id"))
       then network st
       else (network st ++ [(req, api req)])%list) ∧
  (∀ oldPassword newPassword,
     let req := Request POST
                  ("/users/" ++ to_string (prop (user st) "id")
                             ++ "/change-password")
                  (VObj [("old_password", oldPassword);
                         ("new_password", newPassword)]) in
     network (changePassword oldPassword newPassword st).1
     = if nullish (user st) || negb (stringable (prop (user st) "id"))
       then network st
       else (network st ++ [(req, api req)])%list).
Proof.
  split_and!; intros.
  - destruct (login _ _ st) as [st' c] eqn:Hrun.
    unfold_store. run_handler Hrun; subst req; congruence.
  - destruct (register _ _ _ _ st) as [st' c] eqn:Hrun.
    unfold_store. run_handler Hrun; subst req; congruence.
  - destruct (updateUser _ st) as [st' c] eqn:Hrun.
    unfold_store. run_handler Hrun; subst req;
      repeat match goal with H : _ = _ |- _ => rewrite H end; done.
  - destruct (changePassword _ _ st) as [st' c] eqn:Hrun.
    unfold_store. run_handler Hrun; subst req;
      repeat match goal with H : _ = _ |- _ => rewrite H end; done.
Qed.

(** X5. What a successful login persists, the next start-up restores: when
    [JSON.parse] reads the stored text back as the identity, the mount effect
    run on the storage the login left adopts that identity again. *)
Theorem login_then_mount (usernameOrEmail password : value) (st st' : state)
    (result : completion value) (response : value) (text : string)
    (classes : gset string) :
  login usernameOrEmail password st = (st', result) →
  answered st st' response →
  prop response "success" = VBool true →
  JSON_stringify (prop response "data") = Some text →
  text ≠ "" →
  JSON_parse text = Some (prop response "data") →
  ∃ st'',
    AuthProvider_effect (mount (localStorage st') classes) = (st'', Normal tt) ∧
    user st'' = prop response "data" ∧
    loading st'' = false ∧
    localStorage st'' = localStorage st'.
Proof.
  intros Hrun Hanswer Hsuccess Htext Hne Hparse.
  apply String.eqb_neq in Hne.
  pose proof (success_true_not_nullish _ Hsuccess) as Hobj.
  unfold_store. run_handler Hrun; same_exchange; try congruence.
  - unfold_js. simpl. rewrite lookup_insert_eq, Htext. simpl.
    rewrite Hne. simpl. rewrite Hparse. simpl. by eexists.
  - rewrite Hsuccess in *. discriminate.
Qed.

(** X6. After a logout the next start-up finds nobody signed in: the mount
    effect run on the storage the logout left ends with no identity, the
    loading flag cleared and that storage untouched, whatever [JSON.parse]
    would do. *)
Theorem logout_then_mount (st : state) (classes : gset string) :
  ∃ st'',
    AuthProvider_effect (mount (localStorage (logout st).1) classes)
    = (st'', Normal tt) ∧
    user st'' = VNull ∧
    loading st'' = false ∧
    localStorage st'' = localStorage (logout st).1 ∧
    console st'' = [].
Proof.
  unfold_store. unfold_js. simpl. rewrite lookup_delete_eq. simpl.
  by eexists.
Qed.

(** X7. On every state the mount effect of the session store completes
    normally with the loading flag cleared and without calling the API
    client; it touches neither the theme nor the class list nor any storage
    key but [user]; and when nothing is stored under [user] it leaves
    identity, storage and console as they were. *)
Theorem AuthProvider_effect_always (st : state) :
  ∃ st',
    AuthProvider_effect st = (st', Normal tt) ∧
    loading st' = false ∧
    silent st st' ∧
    theme st' = theme st ∧
    classList st' = classList st ∧
    (∀ k, k ≠ "user" → localStorage st' !! k = localStorage st !! k) ∧
    (localStorage st !! "user" = None →
     user st' = user st ∧ localStorage st' = localStorage st ∧
     console st' = console st).
Proof.
  unfold_store. unfold_js. simpl.
  destruct (localStorage st !! "user") as [s|] eqn:Hstored; simpl.
  - destruct (String.eqb s ""); simpl; [by eexists; split_and! |].
    destruct (JSON_parse s); simpl; eexists; split_and!; try done.
    intros k Hk. by apply lookup_delete_ne.
  - by eexists; split_and!.
Qed.

(** X8. The session store owns the [user] key and nothing else: no operation
    (login, register, updateUser, changePassword, logout) changes the theme,
    the class list of the document, the loading flag or any storage key other
    than [user]. *)
Theorem session_store_frame (st : state) :
  (∀ op,
     let st' := (call op st).1 in
     theme st' = theme st ∧ classList st' = classList st ∧
     loading st' = loading st ∧
     ∀ k, k ≠ "user" → localStorage st' !! k = localStorage st !! k) ∧
  (let st' := (logout st).1 in
   theme st' = theme st ∧ classList st' = classList st ∧
   loading st' = loading st ∧
   ∀ k, k ≠ "user" → localStorage st' !! k = localStorage st !! k).
Proof.
  split.
  - intros op st'. subst st'.
    destruct (call op st) as [st' c] eqn:Hrun.
    destruct op; unfold_store; run_handler Hrun; split_and!; try done.
    all: intros k Hk; by apply lookup_insert_ne.
  - simpl. split_and!; try done. intros k Hk. by apply lookup_delete_ne.
Qed.

End SessionStore.

(** ** Further properties of the theme store *)

(** X9. The theme store owns the [theme] key and nothing else: toggleTheme,
    setThemeMode and the mount effect change neither the identity nor the
    loading flag, send no request, and leave every storage key other than
    [theme] alone; the mount effect writes no storage key at all. *)
Theorem theme_store_frame (st : state) :
  (let st' := (toggleTheme st).1 in
   user st' = user st ∧ loading st' = loading st ∧ silent st st' ∧
   ∀ k, k ≠ "theme" → localStorage st' !! k = localStorage st !! k) ∧
  (∀ newTheme,
     let st' := (setThemeMode newTheme st).1 in
     user st' = user st ∧ loading st' = loading st ∧ silent st st' ∧
     ∀ k, k ≠ "theme" → localStorage st' !! k = localStorage st !! k) ∧
  (∀ prefers_dark,
     let st' := (ThemeProvider_effect prefers_dark st).1 in
     user st' = user st ∧ loading st' = loading st ∧ silent st st' ∧
     localStorage st' = localStorage st).
Proof.
  split_and!.
  - destruct (toggleTheme_run st) as (st' & Hrun & _ & Hstorage & _ & ? & ? & ?).
    rewrite Hrun. simpl. split_and!; try done.
    intros k Hk. rewrite Hstorage. by apply lookup_insert_ne.
  - intros newTheme. unfold setThemeMode. unfold_js. simpl.
    repeat match goal with
           | |- context [if ?b then _ else _] => destruct b; simpl
           end; split_and!; try done; intros k Hk; by apply lookup_insert_ne.
  - intros prefers_dark. unfold ThemeProvider_effect. unfold_js. simpl.
    repeat match goal with
           | |- context [if ?b then _ else _] => destruct b; simpl
           end; by split_and!.
Qed.

(** X10. A toggled or explicitly set preference survives a restart: the
    mount effect run on the storage that toggleTheme, or setThemeMode with one
    of the two preferences, has left restores that theme, whatever the
    environment prefers. *)
Theorem theme_then_mount (st : state) (prefers_dark : bool)
    (classes : gset string) :
  (let st' := (toggleTheme st).1 in
   theme (ThemeProvider_effect prefers_dark (mount (localStorage st') classes)).1
   = theme st') ∧
  (∀ p : preference,
     let st' := (setThemeMode (preference_name p) st).1 in
     theme st' = preference_name p ∧
     theme (ThemeProvider_effect prefers_dark (mount (localStorage st') classes)).1
     = preference_name p).
Proof.
  split.
  - destruct (toggleTheme_run st) as (st' & Hrun & Htheme & Hstorage & _).
    rewrite Hrun. simpl. rewrite Hstorage, Htheme.
    unfold ThemeProvider_effect. unfold_js. simpl. rewrite lookup_insert_eq.
    by destruct (String.eqb (theme st) "light").
  - intros []; simpl; unfold ThemeProvider_effect; unfold_js; simpl;
      by rewrite lookup_insert_eq.
Qed.

(** X11. setThemeMode stores a name before the class list has accepted it:
    called with a name that holds ASCII white space it throws an
    [InvalidCharacterError], yet the name is by then the current theme and
    the stored preference, and the document carries neither theme class.
    Every later mount effect on that storage adopts the name and throws at
    the same place, whatever the environment prefers. *)
Theorem setThemeMode_invalid_name (newTheme : string) (st : state)
    (prefers_dark : bool) (classes : gset string) :
  existsb ascii_whitespace (list_ascii_of_string newTheme) = true →
  let run := setThemeMode newTheme st in
  let again := ThemeProvider_effect prefers_dark
                 (mount (localStorage run.1) classes) in
  run.2 = Throw (Error "InvalidCharacterError" VUndefined) ∧
  theme run.1 = newTheme ∧
  localStorage run.1 !! "theme" = Some newTheme ∧
  ("light" ∉ classList run.1) ∧ ("dark" ∉ classList run.1) ∧
  again.2 = Throw (Error "InvalidCharacterError" VUndefined) ∧
  theme again.1 = newTheme.
Proof.
  intros Hspace run again. subst run again.
  assert (String.eqb newTheme "" = false) as Hne.
  { apply String.eqb_neq. intros ->. discriminate Hspace. }
  unfold ThemeProvider_effect, setThemeMode. unfold_js. simpl.
  rewrite Hne, Hspace. simpl. rewrite lookup_insert_eq. simpl.
  rewrite Hne, Hspace. simpl. split_and!; try done.
  1, 2: set_solver.
  all: unfold_js; simpl; by rewrite Hne.
Qed.

(** X12. After a toggle the document carries exactly one of the two theme
    classes, the one of the current theme, and [isDark] agrees with it; every
    other class of the document is kept. *)
Theorem toggleTheme_classList (st : state) :
  let st' := (toggleTheme st).1 in
  theme st' ∈ classList st' ∧
  (isDark st' = true ↔ "dark" ∈ classList st') ∧
  (isDark st' = false ↔ "light" ∈ classList st') ∧
  ¬ ("light" ∈ classList st' ∧ "dark" ∈ classList st') ∧
  (∀ c, c ≠ "light" → c ≠ "dark" → c ∈ classList st' ↔ c ∈ classList st).
Proof.
  destruct (toggleTheme_run st) as (st' & Hrun & Htheme & _ & Hclasses & _).
  rewrite Hrun. simpl. unfold isDark. rewrite Hclasses, Htheme. unfold themed.
  destruct (String.eqb (theme st) "light"); simpl; split_and!; set_solver.
Qed.

(** ** Further properties of the route guards *)

(** X13. The two guards cannot bounce a visitor back and forth: past
    loading, whenever the protected guard sends to [/login] the public guard
    renders its page, and whenever the public guard sends to [/dashboard] the
    protected guard renders its page; while loading neither navigates. *)
Theorem no_redirect_loop {A B : Type} (page : A) (form : B) (st : state) :
  if loading st then
    ProtectedRoute page st = Spinner ∧ PublicRoute form st = Spinner
  else
    (ProtectedRoute page st = Children page ∧
     PublicRoute form st = Navigate "/dashboard" true) ∨
    (ProtectedRoute page st = Navigate "/login" true ∧
     PublicRoute form st = Children form).
Proof.
  unfold ProtectedRoute, PublicRoute.
  destruct (loading st); [done |]. destruct (truthy (user st)); auto.
Qed.

(** ** Regular expressions: what the derivatives decide *)

Lemma lang_cat_inv (r1 r2 : regex) (w : list N) :
  lang (Cat r1 r2) w ↔ ∃ w1 w2, w = (w1 ++ w2)%list ∧ lang r1 w1 ∧ lang r2 w2.
Proof.
  split.
  - inversion 1; subst. eauto.
  - intros (w1 & w2 & -> & H1 & H2). by constructor.
Qed.

Lemma lang_alt_inv (r1 r2 : regex) (w : list N) :
  lang (Alt r1 r2) w ↔ lang r1 w ∨ lang r2 w.
Proof.
  split.
  - inversion 1; subst; auto.
  - intros [H | H]; [by apply lang_alt_l | by apply lang_alt_r].
Qed.

Lemma lang_class_inv (p : N → bool) (w : list N) :
  lang (Class p) w ↔ ∃ a, w = [a] ∧ p a = true.
Proof.
  split.
  - inversion 1; subst. eauto.
  - intros (a & -> & H). by constructor.
Qed.

Lemma lang_eps_inv (w : list N) : lang Eps w ↔ w = [].
Proof.
  split.
  - by inversion 1.
  - intros ->. constructor.
Qed.

Lemma lang_never_inv (w : list N) : ¬ lang Never w.
Proof. inversion 1. Qed.

(** A non-empty word of a starred pattern starts with a non-empty word of
    the pattern. *)
Lemma lang_star_cons_inv (r : regex) (a : N) (w : list N) :
  lang (Star r) (a :: w) →
  ∃ w1 w2, w = (w1 ++ w2)%list ∧ lang r (a :: w1) ∧ lang (Star r) w2.
Proof.
  intros H. remember (Star r) as r' eqn:Hr. remember (a :: w) as w' eqn:Hw.
  revert a w Hw.
  induction H as [| | | | | |r0 w1 w2 H1 _ H2 IH2]; intros x v Hw;
    try discriminate.
  injection Hr as ->.
  destruct w1 as [|b w1]; simpl in Hw.
  - by apply IH2.
  - injection Hw as -> <-. eauto.
Qed.

Lemma nullable_lang (r : regex) : nullable r = true ↔ lang r [].
Proof.
  induction r as [| |p|r1 IH1 r2 IH2|r1 IH1 r2 IH2|r IH]; simpl.
  - split; [done | inversion 1].
  - split; [constructor | done].
  - split; [done | inversion 1].
  - rewrite andb_true_iff, IH1, IH2, lang_cat_inv. split.
    + intros [H1 H2]. by exists [], [].
    + intros (w1 & w2 & Hw & H1 & H2).
      symmetry in Hw. apply app_eq_nil in Hw as [-> ->]. done.
  - by rewrite orb_true_iff, IH1, IH2, lang_alt_inv.
  - split; [constructor | done].
Qed.

Lemma deriv_lang (a : N) (r : regex) (w : list N) :
  lang (deriv a r) w ↔ lang r (a :: w).
Proof.
  revert w.
  induction r as [| |p|r1 IH1 r2 IH2|r1 IH1 r2 IH2|r IH]; intros w; simpl.
  - split; inversion 1.
  - split; inversion 1.
  - rewrite lang_class_inv. destruct (p a) eqn:Hp.
    + rewrite lang_eps_inv. split.
      * intros ->. eauto.
      * by intros (b & [= -> ->] & _).
    + split; [inversion 1 |]. intros (b & [= -> ->] & Hb). congruence.
  - assert (lang (Cat (deriv a r1) r2) w ↔
            ∃ w1 w2, w = (w1 ++ w2)%list ∧ lang r1 (a :: w1) ∧ lang r2 w2)
      as Hfirst.
    { rewrite lang_cat_inv. by setoid_rewrite IH1. }
    rewrite (lang_cat_inv r1 r2). split.
    + intros H.
      assert (lang (Cat (deriv a r1) r2) w ∨
              (nullable r1 = true ∧ lang (deriv a r2) w)) as [H' | [Hn H']].
      { destruct (nullable r1); [| by left].
        apply lang_alt_inv in H as [H | H]; auto. }
      * apply Hfirst in H' as (w1 & w2 & -> & H1 & H2).
        by exists (a :: w1), w2.
      * apply nullable_lang in Hn. apply IH2 in H'. by exists [], (a :: w).
    + intros (w1 & w2 & Hw & H1 & H2). destruct w1 as [|b w1]; simpl in Hw.
      * subst w2. apply nullable_lang in H1 as Hn. rewrite Hn.
        apply lang_alt_r. by apply IH2.
      * injection Hw as <- ->.
        assert (lang (Cat (deriv a r1) r2) (w1 ++ w2)) as H' by (apply Hfirst; eauto).
        destruct (nullable r1); [by apply lang_alt_l | done].
  - by rewrite !lang_alt_inv, IH1, IH2.
  - rewrite lang_cat_inv. setoid_rewrite IH. split.
    + intros (w1 & w2 & -> & H1 & H2).
      by apply (lang_star_cons r (a :: w1) w2).
    + apply lang_star_cons_inv.
Qed.

Lemma matches_lang (r : regex) (w : list N) : matches r w = true ↔ lang r w.
Proof.
  revert r. induction w as [|a w IH]; intros r; simpl.
  - apply nullable_lang.
  - by rewrite IH, deriv_lang.
Qed.

Lemma lang_star_class (p : N → bool) (w : list N) :
  lang (Star (Class p)) w ↔ forallb p w = true.
Proof.
  induction w as [|a w IH]; simpl.
  - split; [done | constructor].
  - rewrite andb_true_iff, <- IH. split.
    + intros H. apply lang_star_cons_inv in H as (w1 & w2 & -> & H1 & H2).
      apply lang_class_inv in H1 as (b & [= -> Hnil] & Hp).
      symmetry in Hnil. subst w1. done.
    + intros [Hp H]. apply (lang_star_cons (Class p) [a] w); [by constructor | done].
Qed.

Lemma lang_plus_class (p : N → bool) (w : list N) :
  lang (Plus (Class p)) w ↔ w ≠ [] ∧ forallb p w = true.
Proof.
  unfold Plus. rewrite lang_cat_inv. split.
  - intros (w1 & w2 & -> & H1 & H2).
    apply lang_class_inv in H1 as (a & -> & Hp).
    apply lang_star_class in H2. simpl. by rewrite Hp, H2.
  - intros [Hne Hall]. destruct w as [|a w]; [done |]. simpl in Hall.
    apply andb_true_iff in Hall as [Hp Hall].
    exists [a], w. split_and!; [done | by constructor | by apply lang_star_class].
Qed.

(** [/[class]/.test(s)]: some code unit of [s] is in the class. *)
Lemma test_anywhere_class (p : N → bool) (s : string) :
  test_anywhere (Class p) s = existsb p (code_units s).
Proof.
  unfold test_anywhere. apply eq_true_iff_eq.
  rewrite matches_lang, existsb_exists, lang_cat_inv.
  setoid_rewrite lang_cat_inv. setoid_rewrite lang_class_inv. split.
  - intros (w1 & w2 & -> & _ & (w3 & w4 & -> & (a & -> & Hp) & _)).
    exists a. split; [| done]. apply in_or_app. right. by left.
  - intros (a & Hin & Hp). apply in_split in Hin as (w1 & w2 & ->).
    exists w1, (a :: w2). split_and!; [done | by apply lang_star_class, forallb_forall |].
    exists [a], w2. split_and!; [done | eauto | by apply lang_star_class, forallb_forall].
Qed.

(** ** Properties of the pages *)

Ltac unfold_page :=
  unfold pbind, pret, cells, lift, update, try_catch_finally in *.

Section Pages.

Variable JSON_stringify : value → option string.
Variable api : request → api_outcome.

(** What every operation of the session store returns: an object whose
    [success] is [true], or one whose [success] is [false] and whose [error]
    is truthy. *)
Lemma call_result (op : operation) (st : state) :
  ∃ st' result,
    call JSON_stringify api op st = (st', Normal result) ∧
    nullish result = false ∧
    (prop result "success" = VBool true ∨
     (prop result "success" = VBool false ∧ truthy (prop result "error") = true)).
Proof.
  destruct (call JSON_stringify api op st) as [st' c] eqn:Hrun.
  destruct op; unfold_store; run_handler Hrun.
  all: eexists _, _; split; [reflexivity |]; split; [done |].
  all: simpl; auto.
  all: right; split; [done |]; unfold js_or.
  all: match goal with
       | |- context [if truthy ?m then _ else _] =>
           destruct (truthy m) eqn:Hmessage
       end; done.
Qed.

(** X14. The login form submitted with either field empty shows the
    required-fields message and does nothing else: no request, no change of
    the stores, no navigation, and the page's loading flag and fields are
    left alone. *)
Theorem LoginPage_submit_incomplete (st : state) (pg : LoginPage.page) :
  LoginPage.usernameOrEmail (LoginPage.formData pg) = "" ∨
  LoginPage.password (LoginPage.formData pg) = "" →
  LoginPage.handleSubmit JSON_stringify api (st, pg)
  = ((st, LoginPage.Page (LoginPage.formData pg) (LoginPage.showPassword pg)
                         (LoginPage.loading pg) (VStr "请填写所有必填字段")
                         (LoginPage.navigations pg)),
     Normal tt).
Proof.
  intros Hempty. unfold LoginPage.handleSubmit, LoginPage.setError. unfold_page.
  simpl.
  destruct Hempty as [-> | ->]; simpl; [done |]. by rewrite orb_true_r.
Qed.

(** X15. The login form submitted with both fields filled in runs the
    store's login once with the two fields as typed and completes normally
    with the page's loading flag cleared and the fields kept.  When the
    result says success the page navigates to [/dashboard] and shows no
    error; otherwise it stays, and the error it shows is the result's
    [error], which is never empty. *)
Theorem LoginPage_submit (st : state) (pg : LoginPage.page) :
  LoginPage.usernameOrEmail (LoginPage.formData pg) ≠ "" →
  LoginPage.password (LoginPage.formData pg) ≠ "" →
  ∃ st' pg' result,
    LoginPage.handleSubmit JSON_stringify api (st, pg) = ((st', pg'), Normal tt) ∧
    login JSON_stringify api
      (VStr (LoginPage.usernameOrEmail (LoginPage.formData pg)))
      (VStr (LoginPage.password (LoginPage.formData pg))) st
    = (st', Normal result) ∧
    LoginPage.loading pg' = false ∧
    LoginPage.formData pg' = LoginPage.formData pg ∧
    ((prop result "success" = VBool true ∧
      LoginPage.navigations pg' = (LoginPage.navigations pg ++ ["/dashboard"])%list ∧
      LoginPage.error pg' = VStr "")
     ∨
     (prop result "success" = VBool false ∧
      LoginPage.navigations pg' = LoginPage.navigations pg ∧
      LoginPage.error pg' = prop result "error" ∧
      truthy (LoginPage.error pg') = true)).
Proof.
  intros Hu Hp. apply String.eqb_neq in Hu, Hp.
  destruct (call_result
              (Login (VStr (LoginPage.usernameOrEmail (LoginPage.formData pg)))
                     (VStr (LoginPage.password (LoginPage.formData pg)))) st)
    as (st' & result & Hrun & Hobj & Hresult).
  simpl in Hrun.
  unfold LoginPage.handleSubmit, LoginPage.setError, LoginPage.setLoading,
    LoginPage.navigate.
  unfold_page. unfold member. simpl. rewrite Hu, Hp. simpl. rewrite Hrun. simpl.
  rewrite Hobj. unfold ret. simpl.
  destruct Hresult as [Hs | [Hs He]]; rewrite Hs; simpl.
  - eexists _, _, _. split_and!; try done. left. by split_and!.
  - eexists _, _, _. split_and!; try done. right. by split_and!.
Qed.

#[local] Arguments js_length : simpl never.
#[local] Arguments test_whole : simpl never.
#[local] Arguments test_anywhere : simpl never.
#[local] Arguments RegisterPage.check : simpl never.
#[local] Arguments RegisterPage.every : simpl never.
#[local] Arguments Nat.leb : simpl never.
#[local] Arguments Nat.ltb : simpl never.

Lemma emailRegex_rejects_empty : test_whole RegisterPage.emailRegex "" = false.
Proof. reflexivity. Qed.

Lemma check_rejects_empty : RegisterPage.every (RegisterPage.check "") = false.
Proof. reflexivity. Qed.

Lemma js_length_empty (s : string) : (3 <=? js_length s)%nat = true → s ≠ "".
Proof. by intros H ->. Qed.

(** X16. The registration form sends a request exactly when the user name
    has at least three code units, the e-mail address matches the pattern,
    the password passes its three checks and the confirmation equals it;
    the tests for empty required fields reject nothing those four accept.
    The request is then the store's registration of the fields as typed,
    the display name falling back to the user name when left empty.  In
    every other case the stores are left as they were, no navigation
    happens and the form shows a non-empty error. *)
Theorem RegisterPage_submit_gate (st : state) (pg : RegisterPage.page) :
  let form := RegisterPage.formData pg in
  let accepted :=
    (3 <=? js_length (RegisterPage.username form))%nat
    && test_whole RegisterPage.emailRegex (RegisterPage.email form)
    && RegisterPage.every (RegisterPage.check (RegisterPage.password form))
    && String.eqb (RegisterPage.password form)
                  (RegisterPage.confirmPassword form) in
  let req :=
    Request POST "/users/"
      (VObj [("username", VStr (RegisterPage.username form));
             ("email", VStr (RegisterPage.email form));
             ("password", VStr (RegisterPage.password form));
             ("display_name",
              VStr (if String.eqb (RegisterPage.displayName form) ""
                    then RegisterPage.username form
                    else RegisterPage.displayName form))]) in
  let run := RegisterPage.handleSubmit JSON_stringify api (st, pg) in
  if accepted then
    network run.1.1 = (network st ++ [(req, api req)])%list
  else
    run.1.1 = st ∧
    RegisterPage.navigations run.1.2 = RegisterPage.navigations pg ∧
    RegisterPage.loading run.1.2 = RegisterPage.loading pg ∧
    truthy (RegisterPage.error run.1.2) = true.
Proof.
  intros form accepted req run. subst accepted run.
  unfold RegisterPage.handleSubmit, RegisterPage.validatePassword,
    RegisterPage.setError, RegisterPage.setLoading, RegisterPage.navigate,
    RegisterPage.setPasswordValidation.
  unfold_page. simpl. fold form.
  destruct (3 <=? js_length (RegisterPage.username form))%nat eqn:Hname; simpl.
  - pose proof (js_length_empty _ Hname) as Hne. apply String.eqb_neq in Hne.
    rewrite Hne. simpl.
    assert ((js_length (RegisterPage.username form) <? 3)%nat = false) as ->.
    { apply Nat.ltb_ge. by apply Nat.leb_le. }
    destruct (test_whole RegisterPage.emailRegex (RegisterPage.email form))
      eqn:Hemail; simpl.
    + assert (String.eqb (RegisterPage.email form) "" = false) as ->.
      { apply String.eqb_neq. intros Heq. rewrite Heq in Hemail. done. }
      simpl.
      destruct (RegisterPage.every (RegisterPage.check (RegisterPage.password form)))
        eqn:Hpassword; simpl.
      * assert (String.eqb (RegisterPage.password form) "" = false) as ->.
        { apply String.eqb_neq. intros Heq. rewrite Heq in Hpassword. done. }
        simpl.
        destruct (String.eqb (RegisterPage.password form)
                             (RegisterPage.confirmPassword form)); simpl.
        -- destruct (call_result
                       (Register (VStr (RegisterPage.username form))
                          (VStr (RegisterPage.email form))
                          (VStr (RegisterPage.password form))
                          (js_or (VStr (RegisterPage.displayName form))
                                 (VStr (RegisterPage.username form)))) st)
             as (st' & result & Hrun & Hobj & Hresult).
           simpl in Hrun. rewrite Hrun. simpl.
           assert (network st' = (network st ++ [(req, api req)])%list) as Hnet.
           { clear Hresult Hobj. unfold_store. subst req.
             unfold js_or in Hrun. simpl in Hrun.
             destruct (String.eqb (RegisterPage.displayName form) "");
               simpl in Hrun; run_handler Hrun; congruence. }
           unfold member. rewrite Hobj. unfold ret. simpl.
           destruct Hresult as [Hs | [Hs He]]; rewrite Hs; simpl;
             rewrite ?Hobj; simpl; exact Hnet.
        -- done.
      * destruct (String.eqb (RegisterPage.password form) ""); done.
    + destruct (String.eqb (RegisterPage.email form) "");
        destruct (String.eqb (RegisterPage.password form) ""); done.
  - assert ((js_length (RegisterPage.username form) <? 3)%nat = true) as ->.
    { apply Nat.ltb_lt. apply Nat.leb_gt in Hname. lia. }
    destruct (String.eqb (RegisterPage.username form) "");
      destruct (String.eqb (RegisterPage.email form) "");
      destruct (String.eqb (RegisterPage.password form) ""); done.
Qed.

(** X17. A registration form that passes the checks runs the store's
    register once and completes normally with the page's loading flag
    cleared and the fields kept.  When the result says success the page
    navigates to [/dashboard] and shows no error; otherwise it stays, and
    the error it shows is the result's [error], which is never empty. *)
Theorem RegisterPage_submit (st : state) (pg : RegisterPage.page) :
  let form := RegisterPage.formData pg in
  (3 <=? js_length (RegisterPage.username form))%nat = true →
  test_whole RegisterPage.emailRegex (RegisterPage.email form) = true →
  RegisterPage.every (RegisterPage.check (RegisterPage.password form)) = true →
  RegisterPage.password form = RegisterPage.confirmPassword form →
  ∃ st' pg' result,
    RegisterPage.handleSubmit JSON_stringify api (st, pg) = ((st', pg'), Normal tt) ∧
    register JSON_stringify api
      (VStr (RegisterPage.username form)) (VStr (RegisterPage.email form))
      (VStr (RegisterPage.password form))
      (js_or (VStr (RegisterPage.displayName form))
             (VStr (RegisterPage.username form))) st
    = (st', Normal result) ∧
    RegisterPage.loading pg' = false ∧
    RegisterPage.formData pg' = form ∧
    ((prop result "success" = VBool true ∧
      RegisterPage.navigations pg'
      = (RegisterPage.navigations pg ++ ["/dashboard"])%list ∧
      RegisterPage.error pg' = VStr "")
     ∨
     (prop result "success" = VBool false ∧
      RegisterPage.navigations pg' = RegisterPage.navigations pg ∧
      RegisterPage.error pg' = prop result "error" ∧
      truthy (RegisterPage.error pg') = true)).
Proof.
  intros form Hname Hemail Hpassword Hconfirm.
  pose proof (js_length_empty _ Hname) as Hne. apply String.eqb_neq in Hne.
  assert (String.eqb (RegisterPage.email form) "" = false) as Hne2.
  { apply String.eqb_neq. intros Heq. rewrite Heq in Hemail. done. }
  assert (String.eqb (RegisterPage.password form) "" = false) as Hne3.
  { apply String.eqb_neq. intros Heq. rewrite Heq in Hpassword. done. }
  assert ((js_length (RegisterPage.username form) <? 3)%nat = false) as Hlt.
  { apply Nat.ltb_ge. by apply Nat.leb_le. }
  apply String.eqb_eq in Hconfirm.
  destruct (call_result
              (Register (VStr (RegisterPage.username form))
                 (VStr (RegisterPage.email form))
                 (VStr (RegisterPage.password form))
                 (js_or (VStr (RegisterPage.displayName form))
                        (VStr (RegisterPage.username form)))) st)
    as (st' & result & Hrun & Hobj & Hresult).
  simpl in Hrun.
  unfold RegisterPage.handleSubmit, RegisterPage.validatePassword,
    RegisterPage.setError, RegisterPage.setLoading, RegisterPage.navigate,
    RegisterPage.setPasswordValidation.
  unfold_page. unfold member. simpl. fold form.
  rewrite Hne, Hne2, Hne3, Hlt, Hemail. simpl. rewrite Hpassword, Hconfirm. simpl.
  rewrite Hrun. simpl. rewrite Hobj. unfold ret. simpl.
  destruct Hresult as [Hs | [Hs He]]; rewrite Hs; simpl; rewrite ?Hobj; simpl.
  - eexists _, _, _. split_and!; try done. left. by split_and!.
  - eexists _, _, _. split_and!; try done. right. by split_and!.
Qed.

(** X18. validatePassword accepts a password exactly when it has at least
    six code units, an ASCII letter among them and an ASCII digit among
    them; whatever it answers, it sets the strength indicator of the page
    to the outcome of the three checks and touches nothing else. *)
Theorem RegisterPage_validatePassword (password : string) (st : state)
    (pg : RegisterPage.page) :
  ∃ pg' accepted,
    RegisterPage.validatePassword password (st, pg)
    = ((st, pg'), Normal accepted) ∧
    RegisterPage.passwordValidation pg' = RegisterPage.check password ∧
    RegisterPage.formData pg' = RegisterPage.formData pg ∧
    RegisterPage.error pg' = RegisterPage.error pg ∧
    RegisterPage.loading pg' = RegisterPage.loading pg ∧
    (accepted = true ↔
     (6 ≤ js_length password)%nat ∧
     (∃ u, u ∈ code_units password ∧ ascii_letter u = true) ∧
     (∃ u, u ∈ code_units password ∧ ascii_digit u = true)).
Proof.
  unfold RegisterPage.validatePassword, RegisterPage.setPasswordValidation.
  unfold_page. simpl. eexists _, _. split_and!; try done.
  unfold RegisterPage.every, RegisterPage.check. simpl.
  rewrite !andb_true_iff, !test_anywhere_class, !existsb_exists, Nat.leb_le.
  setoid_rewrite list_elem_of_In. tauto.
Qed.

(** X19. The strength indicator stays in step with the password field: if
    it shows the checks of the password in the form, it still does after
    any input into any field and after any submission. *)
Theorem RegisterPage_indicator (st : state) (pg : RegisterPage.page) :
  RegisterPage.passwordValidation pg
  = RegisterPage.check (RegisterPage.password (RegisterPage.formData pg)) →
  (∀ name value,
     let pg' := (RegisterPage.handleChange name value (st, pg)).1.2 in
     RegisterPage.passwordValidation pg'
     = RegisterPage.check (RegisterPage.password (RegisterPage.formData pg'))) ∧
  (let pg' := (RegisterPage.handleSubmit JSON_stringify api (st, pg)).1.2 in
   RegisterPage.passwordValidation pg'
   = RegisterPage.check (RegisterPage.password (RegisterPage.formData pg'))).
Proof.
  intros Hsync. split.
  - intros name value.
    unfold RegisterPage.handleChange, RegisterPage.validatePassword,
      RegisterPage.setFormData, RegisterPage.setError,
      RegisterPage.setPasswordValidation.
    unfold_page.
    destruct name; simpl; destruct (truthy (RegisterPage.error pg)); simpl; done.
  - unfold RegisterPage.handleSubmit, RegisterPage.validatePassword,
      RegisterPage.setError, RegisterPage.setLoading, RegisterPage.navigate,
      RegisterPage.setPasswordValidation.
    unfold_page. simpl.
    repeat match goal with
           | |- context [if ?b then _ else _] => destruct b eqn:?; simpl
           end; try done.
    all: match goal with
         | |- context [register ?a ?b ?c ?d ?e ?f ?s] =>
             destruct (call_result (Register c d e f) s)
               as (st' & result & Hrun & Hobj & Hresult);
             simpl in Hrun; rewrite Hrun; simpl
         end.
    all: unfold member; rewrite Hobj; unfold ret; simpl.
    all: destruct Hresult as [Hs | [Hs He]]; rewrite Hs; simpl;
      rewrite ?Hobj; simpl; done.
Qed.

(** X20. Saving the profile never throws and always ends with the page's
    loading flag cleared and the typed fields kept.  It runs the store's
    updateUser once with the four profile fields.  On a result that says
    success the editor is closed and the success message shown; otherwise
    the editor stays as it was and the result's [error], never empty, is
    shown. *)
Theorem ProfilePage_update (st : state) (pg : ProfilePage.page) :
  ∃ st' pg' result,
    ProfilePage.handleProfileUpdate JSON_stringify api (st, pg)
    = ((st', pg'), Normal tt) ∧
    updateUser JSON_stringify api
      (ProfilePage.profile_object (ProfilePage.profileData pg)) st
    = (st', Normal result) ∧
    ProfilePage.loading pg' = false ∧
    ProfilePage.profileData pg' = ProfilePage.profileData pg ∧
    ProfilePage.passwordData pg' = ProfilePage.passwordData pg ∧
    ((prop result "success" = VBool true ∧
      ProfilePage.isEditing pg' = false ∧
      ProfilePage.message pg'
      = ProfilePage.Notice "success" (VStr "个人信息更新成功！"))
     ∨
     (prop result "success" = VBool false ∧
      ProfilePage.isEditing pg' = ProfilePage.isEditing pg ∧
      ProfilePage.message pg' = ProfilePage.Notice "error" (prop result "error") ∧
      truthy (prop result "error") = true)).
Proof.
  destruct (call_result
              (UpdateUser (ProfilePage.profile_object (ProfilePage.profileData pg)))
              st)
    as (st' & result & Hrun & Hobj & Hresult).
  simpl in Hrun.
  unfold ProfilePage.handleProfileUpdate, ProfilePage.setMessage,
    ProfilePage.setLoading, ProfilePage.setIsEditing.
  unfold_page. unfold member. simpl. rewrite Hrun. simpl. rewrite Hobj.
  unfold ret. simpl.
  destruct Hresult as [Hs | [Hs He]]; rewrite Hs; simpl; rewrite ?Hobj; simpl.
  - eexists _, _, _. split_and!; try done. left. by split_and!.
  - eexists _, _, _. split_and!; try done. right. by split_and!.
Qed.

(** X21. Signing out from the layout never throws; it leaves no identity
    and no [user] key, sends no request and navigates to [/login].  Once the
    session store is past loading, the public guard then renders the login
    page it navigated to, and the protected guard keeps every protected page
    behind [/login]. *)
Theorem LayoutView_handleLogout {A B : Type} (form : A) (protected : B)
    (st : state) (pg : LayoutView.page) :
  ∃ st',
    LayoutView.handleLogout (st, pg)
    = ((st', LayoutView.Page (LayoutView.sidebarOpen pg)
                             (LayoutView.navigations pg ++ ["/login"])),
       Normal tt) ∧
    user st' = VNull ∧
    localStorage st' !! "user" = None ∧
    silent st st' ∧
    (loading st = false →
     PublicRoute form st' = Children form ∧
     ProtectedRoute protected st' = Navigate "/login" true).
Proof.
  unfold LayoutView.handleLogout, LayoutView.navigate. unfold_page.
  unfold_store. unfold_js. simpl. eexists. split_and!; try done.
  - apply lookup_delete_eq.
  - unfold PublicRoute, ProtectedRoute. simpl. by intros ->.
Qed.

(** X22. After a login whose API response has [success: true], and with the
    session store past loading, the protected guard renders its page exactly
    when the response's [data] is truthy.  A response that says success but
    carries no usable [data] makes login report success while the guard
    still sends to [/login]. *)
Theorem login_then_guards {A : Type} (page : A)
    (usernameOrEmail password : value) (st st' : state)
    (result : completion value) (response : value) :
  login JSON_stringify api usernameOrEmail password st = (st', result) →
  answered st st' response →
  prop response "success" = VBool true →
  loading st = false →
  result = Normal (success_with (prop response "data")) ∧
  ProtectedRoute page st'
  = (if truthy (prop response "data") then Children page
     else Navigate "/login" true).
Proof.
  intros Hrun Hanswer Hsuccess Hloading.
  pose proof (success_true_not_nullish _ Hsuccess) as Hobj.
  unfold ProtectedRoute.
  unfold_store. run_handler Hrun; same_exchange.
  - congruence.
  - by rewrite Hloading.
  - rewrite Hsuccess in *. discriminate.
Qed.

(** X23. Cancelling the profile editor after a save that succeeded shows
    what the server returned, not what was typed: each field is the
    corresponding property of the response's [data], or the empty string
    when the response lacks it; the editor is closed and the message
    cleared. *)
Theorem ProfilePage_save_then_cancel (st st' : state) (pg pg' : ProfilePage.page)
    (response : value) :
  ProfilePage.handleProfileUpdate JSON_stringify api (st, pg)
  = ((st', pg'), Normal tt) →
  answered st st' response →
  prop response "success" = VBool true →
  ∃ pg'',
    ProfilePage.handleCancelEdit (st', pg') = ((st', pg''), Normal tt) ∧
    ProfilePage.profileData pg''
    = ProfilePage.from_user (prop response "data") ∧
    ProfilePage.isEditing pg'' = false ∧
    ProfilePage.message pg'' = ProfilePage.Notice "" (VStr "").
Proof.
  intros Hrun Hanswer Hsuccess.
  pose proof (success_true_not_nullish _ Hsuccess) as Hobj.
  assert (user st' = prop response "data") as Huser.
  { revert Hrun.
    unfold ProfilePage.handleProfileUpdate, ProfilePage.setMessage,
      ProfilePage.setLoading, ProfilePage.setIsEditing.
    unfold_page. cbn [fst snd].
    destruct (updateUser JSON_stringify api _ st) as [st1 c] eqn:Hstore.
    assert (st' = st1 → user st1 = prop response "data") as Hgoal.
    { intros <-. unfold_store. run_handler Hstore; same_exchange;
        first [congruence | rewrite Hsuccess in *; discriminate]. }
    destruct c as [result | e]; simpl.
    - unfold member. destruct (nullish result); unfold throw, ret; simpl.
      + intros [= <- _]. by apply Hgoal.
      + destruct (truthy (prop result "success")); simpl;
          intros [= <- _]; by apply Hgoal.
    - intros [= <- _]. by apply Hgoal. }
  unfold ProfilePage.handleCancelEdit, ProfilePage.setProfileData,
    ProfilePage.setIsEditing, ProfilePage.setMessage.
  unfold_page. unfold getUser. simpl. rewrite Huser. by eexists.
Qed.

End Pages.

(** The password form of the profile page needs the API client only. *)
Section PasswordForm.

Variable api : request → api_outcome.

#[local] Arguments js_length : simpl never.
#[local] Arguments Nat.leb : simpl never.
#[local] Arguments Nat.ltb : simpl never.

(** X24. The password form of the profile page sends a request exactly
    when the new password equals its confirmation, has at least six code
    units, [user] is neither [null] nor [undefined] and its id has a text;
    the request is then the store's changePassword of the old and the new
    password as typed.  A mismatch
    and a short password are answered with a message of their own, the
    mismatch first, and change nothing else.  In no case does the form
    change the identity or the storage. *)
Theorem ProfilePage_password_gate (st : state) (pg : ProfilePage.page) :
  let data := ProfilePage.passwordData pg in
  let confirmed :=
    String.eqb (ProfilePage.newPassword data) (ProfilePage.confirmPassword data) in
  let long_enough := (6 <=? js_length (ProfilePage.newPassword data))%nat in
  let req :=
    Request POST
      ("/users/" ++ to_string (prop (user st) "id") ++ "/change-password")
      (VObj [("old_password", VStr (ProfilePage.oldPassword data));
             ("new_password", VStr (ProfilePage.newPassword data))]) in
  let run := ProfilePage.handlePasswordChange api (st, pg) in
  run.2 = Normal tt ∧
  user run.1.1 = user st ∧
  localStorage run.1.1 = localStorage st ∧
  network run.1.1
  = (if confirmed && long_enough && negb (nullish (user st))
        && stringable (prop (user st) "id")
     then (network st ++ [(req, api req)])%list else network st) ∧
  (confirmed = false →
   run.1 = (st, ProfilePage.Page
                  (ProfilePage.isEditing pg) (ProfilePage.isChangingPassword pg)
                  (ProfilePage.loading pg)
                  (ProfilePage.Notice "error" (VStr "两次输入的新密码不一致"))
                  (ProfilePage.profileData pg) data)) ∧
  (confirmed = true → long_enough = false →
   run.1 = (st, ProfilePage.Page
                  (ProfilePage.isEditing pg) (ProfilePage.isChangingPassword pg)
                  (ProfilePage.loading pg)
                  (ProfilePage.Notice "error" (VStr "新密码至少需要6个字符"))
                  (ProfilePage.profileData pg) data)).
Proof.
  intros data confirmed long_enough req run.
  subst confirmed long_enough run.
  unfold ProfilePage.handlePasswordChange, ProfilePage.setMessage,
    ProfilePage.setLoading, ProfilePage.setIsChangingPassword,
    ProfilePage.setPasswordData.
  unfold_page. simpl. fold data.
  destruct (String.eqb (ProfilePage.newPassword data)
                       (ProfilePage.confirmPassword data)); simpl;
    [| by split_and!].
  destruct (6 <=? js_length (ProfilePage.newPassword data))%nat eqn:Hlong; simpl.
  - assert ((js_length (ProfilePage.newPassword data) <? 6)%nat = false) as ->.
    { apply Nat.ltb_ge. by apply Nat.leb_le. }
    destruct (call_result (fun _ => None) api
                (ChangePassword (VStr (ProfilePage.oldPassword data))
                                (VStr (ProfilePage.newPassword data))) st)
      as (st' & result & Hrun & Hobj & Hresult).
    simpl in Hrun. cbn [fst snd]. rewrite Hrun. simpl.
    assert (user st' = user st ∧ localStorage st' = localStorage st ∧
            network st'
            = (if negb (nullish (user st)) && stringable (prop (user st) "id")
               then (network st ++ [(req, api req)])%list else network st))
      as (Huser & Hstorage & Hnet).
    { clear Hresult Hobj. subst req. unfold_store.
      run_handler Hrun; split_and!; try done;
        repeat match goal with H : _ = _ |- _ => rewrite H end; done. }
    unfold member. rewrite Hobj. unfold ret. simpl.
    destruct Hresult as [Hs | [Hs He]]; rewrite Hs; simpl; rewrite ?Hobj; simpl;
      by split_and!.
  - assert ((js_length (ProfilePage.newPassword data) <? 6)%nat = true) as ->.
    { apply Nat.ltb_lt. apply Nat.leb_gt in Hlong. lia. }
    by split_and!.
Qed.

(** X25. When the password form passes its two checks, the page ends with
    its loading flag cleared.  On a result that says success the form is
    closed, its three fields are emptied and the success message is shown;
    otherwise the form stays open with the fields as typed and shows the
    result's [error], which is never empty. *)
Theorem ProfilePage_password_outcome (st : state) (pg : ProfilePage.page) :
  let data := ProfilePage.passwordData pg in
  ProfilePage.newPassword data = ProfilePage.confirmPassword data →
  (6 <=? js_length (ProfilePage.newPassword data))%nat = true →
  ∃ st' pg' result,
    ProfilePage.handlePasswordChange api (st, pg) = ((st', pg'), Normal tt) ∧
    changePassword api (VStr (ProfilePage.oldPassword data))
                       (VStr (ProfilePage.newPassword data)) st
    = (st', Normal result) ∧
    ProfilePage.loading pg' = false ∧
    ProfilePage.isEditing pg' = ProfilePage.isEditing pg ∧
    ProfilePage.profileData pg' = ProfilePage.profileData pg ∧
    ((prop result "success" = VBool true ∧
      ProfilePage.isChangingPassword pg' = false ∧
      ProfilePage.passwordData pg' = ProfilePage.Passwords "" "" "" ∧
      ProfilePage.message pg'
      = ProfilePage.Notice "success" (VStr "密码修改成功！"))
     ∨
     (prop result "success" = VBool false ∧
      ProfilePage.isChangingPassword pg' = ProfilePage.isChangingPassword pg ∧
      ProfilePage.passwordData pg' = data ∧
      ProfilePage.message pg' = ProfilePage.Notice "error" (prop result "error") ∧
      truthy (prop result "error") = true)).
Proof.
  intros data Hconfirm Hlong. apply String.eqb_eq in Hconfirm.
  assert ((js_length (ProfilePage.newPassword data) <? 6)%nat = false) as Hlt.
  { apply Nat.ltb_ge. by apply Nat.leb_le. }
  destruct (call_result (fun _ => None) api
              (ChangePassword (VStr (ProfilePage.oldPassword data))
                              (VStr (ProfilePage.newPassword data))) st)
    as (st' & result & Hrun & Hobj & Hresult).
  simpl in Hrun.
  unfold ProfilePage.handlePasswordChange, ProfilePage.setMessage,
    ProfilePage.setLoading, ProfilePage.setIsChangingPassword,
    ProfilePage.setPasswordData.
  unfold_page. unfold member. simpl. fold data.
  rewrite Hconfirm, Hlt. simpl. rewrite Hrun. simpl. rewrite Hobj.
  unfold ret. simpl.
  destruct Hresult as [Hs | [Hs He]]; rewrite Hs; simpl; rewrite ?Hobj; simpl.
  - eexists _, _, _. split_and!; try done. left. by split_and!.
  - eexists _, _, _. split_and!; try done. right. by split_and!.
Qed.

End PasswordForm.

(** X26. The e-mail pattern of the registration form accepts exactly the
    strings of the shape [local@left.right] whose three parts are non-empty
    and free of white space and of [@]; an accepted string therefore holds
    exactly one [@] and no white space at all. *)
Theorem emailRegex_shape (s : string) :
  (test_whole RegisterPage.emailRegex s = true ↔
   ∃ local left right,
     code_units s = (local ++ [64%N] ++ left ++ [46%N] ++ right)%list ∧
     local ≠ [] ∧ left ≠ [] ∧ right ≠ [] ∧
     forallb not_space_or_at local = true ∧
     forallb not_space_or_at left = true ∧
     forallb not_space_or_at right = true) ∧
  (test_whole RegisterPage.emailRegex s = true →
   length (List.filter (N.eqb 64) (code_units s)) = 1 ∧
   existsb white_space (code_units s) = false).
Proof.
  assert (test_whole RegisterPage.emailRegex s = true ↔
          ∃ local left right,
            code_units s = (local ++ [64%N] ++ left ++ [46%N] ++ right)%list ∧
            local ≠ [] ∧ left ≠ [] ∧ right ≠ [] ∧
            forallb not_space_or_at local = true ∧
            forallb not_space_or_at left = true ∧
            forallb not_space_or_at right = true) as Hshape.
  { unfold test_whole, RegisterPage.emailRegex, Lit.
    rewrite matches_lang. split.
    - intros H.
      apply lang_cat_inv in H as (local & w1 & -> & Hlocal & H).
      apply lang_cat_inv in H as (at_ & w2 & -> & Hat & H).
      apply lang_cat_inv in H as (left & w3 & -> & Hleft & H).
      apply lang_cat_inv in H as (dot & right & -> & Hdot & Hright).
      apply lang_class_inv in Hat as (a & -> & Ha).
      apply lang_class_inv in Hdot as (d & -> & Hd).
      apply N.eqb_eq in Ha, Hd. subst a d.
      apply lang_plus_class in Hlocal as [? ?], Hleft as [? ?], Hright as [? ?].
      exists local, left, right. by split_and!.
    - intros (local & left & right & Hs & ? & ? & ? & ? & ? & ?).
      rewrite Hs.
      apply lang_cat; [by apply lang_plus_class |].
      apply (lang_cat _ _ [64%N]); [by constructor |].
      apply lang_cat; [by apply lang_plus_class |].
      apply (lang_cat _ _ [46%N]); [by constructor |].
      by apply lang_plus_class. }
  split; [exact Hshape |].
  intros (local & left & right & Hs & _ & _ & _ & Hlocal & Hleft & Hright)%Hshape.
  assert (∀ w, forallb not_space_or_at w = true →
               List.filter (N.eqb 64) w = [] ∧ existsb white_space w = false)
    as Hclean.
  { induction w as [|u w IH]; cbn -[N.eqb white_space not_space_or_at];
      [done |].
    intros [Hu Hw]%andb_true_iff. destruct (IH Hw) as [IH1 IH2].
    unfold not_space_or_at in Hu. apply negb_true_iff, orb_false_iff in Hu as [Hu1 Hu2].
    rewrite N.eqb_sym in Hu2. by rewrite Hu1, Hu2. }
  destruct (Hclean _ Hlocal) as [F1 E1], (Hclean _ Hleft) as [F2 E2],
    (Hclean _ Hright) as [F3 E3].
  rewrite Hs, !List.filter_app, !existsb_app, F1, F2, F3, E1, E2, E3. done.
Qed.

(** ** Properties of the prompt editor *)

Lemma includes_elem_of (l : list string) (s : string) :
  PromptEditor.includes l s = true ↔ s ∈ l.
Proof.
  unfold PromptEditor.includes. rewrite existsb_exists, list_elem_of_In. split.
  - intros (x & Hin & Heq). apply String.eqb_eq in Heq. by subst.
  - intros Hin. exists s. split; [done | apply String.eqb_refl].
Qed.

(** X27. The tag list of the editor never holds a tag twice nor an empty
    tag: if that is so before addTag or removeTag, it is so after. *)
Theorem PromptEditor_tags_invariant (st : state) (pg : PromptEditor.page) :
  NoDup (PromptEditor.tags (PromptEditor.prompt_ pg)) →
  "" ∉ PromptEditor.tags (PromptEditor.prompt_ pg) →
  (let pg' := (PromptEditor.addTag (st, pg)).1.2 in
   NoDup (PromptEditor.tags (PromptEditor.prompt_ pg')) ∧
   "" ∉ PromptEditor.tags (PromptEditor.prompt_ pg')) ∧
  (∀ tag,
     let pg' := (PromptEditor.removeTag tag (st, pg)).1.2 in
     NoDup (PromptEditor.tags (PromptEditor.prompt_ pg')) ∧
     "" ∉ PromptEditor.tags (PromptEditor.prompt_ pg')).
Proof.
  intros Hnodup Hnonempty. split.
  - unfold PromptEditor.addTag, PromptEditor.setPrompt, PromptEditor.setNewTag.
    unfold_page. simpl.
    destruct (String.eqb (trim (PromptEditor.newTag pg)) "") eqn:Hblank; simpl;
      [done |].
    destruct (PromptEditor.includes _ _) eqn:Hin; simpl; [done |].
    apply String.eqb_neq in Hblank.
    assert (trim (PromptEditor.newTag pg)
            ∉ PromptEditor.tags (PromptEditor.prompt_ pg)) as Hfresh.
    { intros H. apply includes_elem_of in H. congruence. }
    split.
    + apply NoDup_app. split_and!; [done | | apply NoDup_singleton].
      intros x Hx ->%list_elem_of_singleton. done.
    + rewrite elem_of_app, list_elem_of_singleton. intros [H | H]; [done |].
      by symmetry in H.
  - intros tag. unfold PromptEditor.removeTag, PromptEditor.setPrompt.
    unfold_page. simpl. split.
    + by apply NoDup_ListNoDup, List.NoDup_filter, NoDup_ListNoDup.
    + rewrite list_elem_of_In, List.filter_In, <- list_elem_of_In. by intros [H _].
Qed.

(** X28. A tag that is added can be taken away again: when the trimmed
    input is a new, non-empty tag, addTag appends it and empties the
    input, and removeTag of that tag brings the tag list back to what it
    was. *)
Theorem PromptEditor_add_then_remove (st : state) (pg : PromptEditor.page) :
  let tag := trim (PromptEditor.newTag pg) in
  tag ≠ "" →
  tag ∉ PromptEditor.tags (PromptEditor.prompt_ pg) →
  ∃ pg1 pg2,
    PromptEditor.addTag (st, pg) = ((st, pg1), Normal tt) ∧
    PromptEditor.removeTag tag (st, pg1) = ((st, pg2), Normal tt) ∧
    PromptEditor.tags (PromptEditor.prompt_ pg1)
    = (PromptEditor.tags (PromptEditor.prompt_ pg) ++ [tag])%list ∧
    PromptEditor.newTag pg1 = "" ∧
    PromptEditor.tags (PromptEditor.prompt_ pg2)
    = PromptEditor.tags (PromptEditor.prompt_ pg).
Proof.
  intros tag Hne Hfresh.
  assert (PromptEditor.includes (PromptEditor.tags (PromptEditor.prompt_ pg)) tag
          = false) as Hin.
  { apply not_true_is_false. by rewrite includes_elem_of. }
  apply String.eqb_neq in Hne.
  unfold PromptEditor.addTag, PromptEditor.removeTag, PromptEditor.setPrompt,
    PromptEditor.setNewTag.
  unfold_page. simpl. fold tag. rewrite Hne, Hin. simpl.
  eexists _, _. split_and!; try done. simpl.
  rewrite List.filter_app. simpl. rewrite String.eqb_refl. simpl.
  rewrite app_nil_r. apply List.forallb_filter_id, forallb_forall.
  intros x Hx. apply negb_true_iff, String.eqb_neq. intros ->.
  by apply list_elem_of_In in Hx.
Qed.

(** X29. An input that is blank after trimming, or that names a tag
    already in the list, is ignored by addTag: the tag list, the input and
    everything else stay as they were. *)
Theorem PromptEditor_addTag_rejected (st : state) (pg : PromptEditor.page) :
  trim (PromptEditor.newTag pg) = "" ∨
  trim (PromptEditor.newTag pg) ∈ PromptEditor.tags (PromptEditor.prompt_ pg) →
  PromptEditor.addTag (st, pg) = ((st, pg), Normal tt).
Proof.
  intros Hrejected. unfold PromptEditor.addTag. unfold_page. simpl.
  destruct Hrejected as [-> | Hin]; [done |].
  apply includes_elem_of in Hin. rewrite Hin. simpl.
  by rewrite andb_false_r.
Qed.

(** ** The two mount effects together *)

Lemma AuthProvider_effect_state (JSON_parse : string → option value)
    (st : state) :
  ∃ u storage log,
    (AuthProvider_effect JSON_parse st).1
    = State u false (theme st) storage (classList st) (network st) log ∧
    (∀ st0, localStorage st0 !! "user" = localStorage st !! "user" →
            user st0 = user st → console st0 = console st →
            (AuthProvider_effect JSON_parse st0).1
            = State u false (theme st0)
                    (if decide (storage = localStorage st)
                     then localStorage st0 else delete "user" (localStorage st0))
                    (classList st0) (network st0) log) ∧
    storage !! "theme" = localStorage st !! "theme".
Proof.
  unfold AuthProvider_effect. unfold_js.
  destruct (localStorage st !! "user") as [s|] eqn:Hstored;
    [destruct (String.eqb s "") eqn:Hempty;
     [| destruct (JSON_parse s) as [v|] eqn:Hparse] |].
  all: simpl; rewrite ?Hempty; simpl; rewrite ?Hparse; simpl.
  all: eexists _, _, _; split; [reflexivity |]; split;
    [| first [done | by apply lookup_delete_ne]].
  all: intros st0 H1 H2 H3; simpl; rewrite H1; simpl; rewrite ?Hempty; simpl;
    rewrite ?Hparse; simpl; rewrite ?H2, ?H3.
  all: first
    [ by rewrite decide_True
    | rewrite decide_False; [done |];
      intros Heq; apply (f_equal (λ m : gmap string string, m !! "user")) in Heq;
      rewrite lookup_delete_eq, Hstored in Heq; done ].
Qed.

Lemma AuthProvider_effect_completes (JSON_parse : string → option value)
    (st : state) :
  (AuthProvider_effect JSON_parse st).2 = Normal tt.
Proof.
  unfold AuthProvider_effect. unfold_js. simpl.
  destruct (localStorage st !! "user") as [s|]; simpl; [| done].
  destruct (String.eqb s ""); simpl; [done |].
  by destruct (JSON_parse s).
Qed.

Lemma ThemeProvider_effect_state (prefers_dark : bool) (st : state) :
  ∃ f c,
    ∀ st0, localStorage st0 !! "theme" = localStorage st !! "theme" →
           ThemeProvider_effect prefers_dark st0
           = (State (user st0) (loading st0)
                    (string_or (localStorage st !! "theme")
                               (if prefers_dark then "dark" else "light"))
                    (localStorage st0) (f (classList st0)) (network st0)
                    (console st0),
              c).
Proof.
  unfold ThemeProvider_effect. unfold_js. simpl.
  set (t := string_or (localStorage st !! "theme")
                      (if prefers_dark then "dark" else "light")).
  destruct (String.eqb t "") eqn:Hempty.
  - eexists (fun classes => classes ∖ list_to_set ["light"; "dark"]), _.
    intros st0 ->. fold t. rewrite Hempty. reflexivity.
  - destruct (existsb ascii_whitespace (list_ascii_of_string t)) eqn:Hspace.
    + eexists (fun classes => classes ∖ list_to_set ["light"; "dark"]), _.
      intros st0 ->. fold t. rewrite Hempty, Hspace. reflexivity.
    + eexists (fun classes => classes ∖ list_to_set ["light"; "dark"] ∪ {[t]}), _.
      intros st0 ->. fold t. rewrite Hempty, Hspace. reflexivity.
Qed.

(** X30. The mount effects of the two providers do not interfere: run in
    either order they leave the same state, and each completes as it does
    when run alone. *)
Theorem mount_effects_commute (JSON_parse : string → option value)
    (prefers_dark : bool) (st : state) :
  let auth := AuthProvider_effect JSON_parse in
  let theme := ThemeProvider_effect prefers_dark in
  (auth (theme st).1).1 = (theme (auth st).1).1 ∧
  (auth (theme st).1).2 = (auth st).2 ∧
  (theme (auth st).1).2 = (theme st).2.
Proof.
  intros auth theme. subst auth theme.
  destruct (AuthProvider_effect_state JSON_parse st)
    as (u & storage & log & Hauth & Hauth' & Hkey).
  destruct (ThemeProvider_effect_state prefers_dark st) as (f & c & Htheme).
  split_and!.
  - rewrite (Htheme st eq_refl), Hauth.
    rewrite Htheme by exact Hkey.
    rewrite Hauth' by done. simpl.
    f_equal. rewrite Hauth' in Hauth by done.
    by injection Hauth.
  - by rewrite !AuthProvider_effect_completes.
  - rewrite (Htheme st eq_refl), Hauth.
    by rewrite Htheme by exact Hkey.
Qed.

(** ** The further properties on concrete inputs *)

(** The text of a number: its digits up to [2^53]; above, the digits of the
    nearest double, as few as identify it; exponent form from [10^21] on. *)
Example number_to_string_examples :
  number_to_string 1 = "1" ∧
  number_to_string (-7) = "-7" ∧
  number_to_string (2 ^ 53 + 1) = "9007199254740992" ∧
  number_to_string (2 ^ 64) = "18446744073709552000" ∧
  number_to_string (10 ^ 21 - 1) = "1e+21" ∧
  number_to_string (10 ^ 21) = "1e+21" ∧
  number_to_string 123456789012345678901234567890 = "1.2345678901234568e+29" ∧
  number_to_string (2 ^ 1024) = "Infinity".
Proof. by vm_compute. Qed.

(** A profile update under an id of [10^21] goes to [/users/1e+21]; under an
    id that is an object with a property [toString] the conversion throws
    inside the [try] and no request is sent. *)
Example updateUser_id_text :
  network (updateUser Json.stringify accepting (VObj [])
             (signed_in_as (VNum (10 ^ 21)))).1
  = [(Request PUT "/users/1e+21" (VObj []),
      Resolved (VObj [("success", VBool true); ("data", alice)]))] ∧
  updateUser Json.stringify accepting (VObj [])
    (signed_in_as (VObj [("toString", VNum 1)]))
  = (State (VObj [("id", VObj [("toString", VNum 1)])]) false "light" ∅ ∅ []
           ["Update user error:"],
     Normal (failure msg_network_error)).
Proof. split; by vm_compute. Qed.

(** X1 at a registration against the accepting server. *)
Lemma register_success_witness :
  let response := VObj [("success", VBool true); ("data", alice)] in
  let run := register Json.stringify accepting (VStr "alice")
               (VStr "alice@example.org") (VStr "secret1") (VStr "Alice")
               signed_out in
  answered signed_out run.1 response ∧
  prop response "success" = VBool true ∧
  user run.1 = alice ∧
  localStorage run.1 !! "user" = Some alice_text ∧
  run.2 = Normal (success_with alice).
Proof.
  intros response run.
  assert (answered signed_out run.1 response) as Hanswer by (eexists; reflexivity).
  split; [exact Hanswer |]. split; [reflexivity |].
  exact (register_success Json.stringify accepting _ _ _ _ signed_out
           run.1 run.2 response eq_refl Hanswer eq_refl).
Defined.

(** X2 at a profile update of [alice] against the accepting server. *)
Lemma updateUser_success_witness :
  let response := VObj [("success", VBool true); ("data", alice)] in
  let userData := VObj [("display_name", VStr "Alice")] in
  let req := Request PUT "/users/1" userData in
  let run := updateUser Json.stringify accepting userData signed_in in
  exchanged signed_in run.1 req (Resolved response) ∧
  prop response "success" = VBool true ∧
  user run.1 = alice ∧
  run.2 = Normal (success_with alice).
Proof.
  intros response userData req run.
  assert (exchanged signed_in run.1 req (Resolved response)) as Hexchange
    by reflexivity.
  split; [exact Hexchange |]. split; [reflexivity |].
  destruct (updateUser_success Json.stringify accepting userData signed_in
              run.1 run.2 req response eq_refl Hexchange eq_refl)
    as (_ & Huser & _ & Hresult).
  split; [exact Huser | exact Hresult].
Defined.

(** X5 at a login of [alice] followed by a restart. *)
Lemma login_then_mount_witness :
  let response := VObj [("success", VBool true); ("data", alice)] in
  let run := login Json.stringify accepting (VStr "alice") (VStr "secret")
               signed_out in
  answered signed_out run.1 response ∧
  Json.stringify alice = Some alice_text ∧
  alice_text ≠ "" ∧
  Json.parse alice_text = Some alice ∧
  ∃ st'',
    AuthProvider_effect Json.parse (mount (localStorage run.1) ∅)
    = (st'', Normal tt) ∧
    user st'' = alice ∧ loading st'' = false.
Proof.
  intros response run.
  assert (answered signed_out run.1 response) as Hanswer by (eexists; reflexivity).
  assert (alice_text ≠ "") as Hne by discriminate.
  split_and!; [exact Hanswer | reflexivity | exact Hne | reflexivity |].
  destruct (login_then_mount Json.parse Json.stringify accepting
              (VStr "alice") (VStr "secret") signed_out run.1 run.2 response
              alice_text ∅ eq_refl Hanswer eq_refl eq_refl Hne eq_refl)
    as (st'' & Hrun & Huser & Hloading & _).
  exists st''. split_and!; [exact Hrun | exact Huser | exact Hloading].
Defined.

(** X14 at the login form with the password left out. *)
Lemma LoginPage_submit_incomplete_witness :
  LoginPage.password (LoginPage.formData login_incomplete) = "" ∧
  LoginPage.handleSubmit Json.stringify accepting (signed_out, login_incomplete)
  = ((signed_out,
      LoginPage.Page (LoginPage.Form "alice" "") false false
                     (VStr "请填写所有必填字段") []),
     Normal tt).
Proof.
  split; [reflexivity |].
  exact (LoginPage_submit_incomplete Json.stringify accepting signed_out
           login_incomplete (or_intror eq_refl)).
Defined.

(** X15 at the filled-in login form against the rejecting server. *)
Lemma LoginPage_submit_witness :
  LoginPage.usernameOrEmail (LoginPage.formData login_filled) ≠ "" ∧
  LoginPage.password (LoginPage.formData login_filled) ≠ "" ∧
  ∃ st' pg',
    LoginPage.handleSubmit Json.stringify rejecting (signed_out, login_filled)
    = ((st', pg'), Normal tt) ∧
    LoginPage.loading pg' = false ∧
    LoginPage.navigations pg' = [] ∧
    LoginPage.error pg' = VStr "bad credentials".
Proof.
  assert ("alice" ≠ "") as Hu by discriminate.
  assert ("secret" ≠ "") as Hp by discriminate.
  split; [exact Hu |]. split; [exact Hp |].
  destruct (LoginPage_submit Json.stringify rejecting signed_out login_filled
              Hu Hp)
    as (st' & pg' & result & Hrun & Hstore & Hloading & _ & Houtcome).
  exists st', pg'. injection Hstore as <- <-.
  destruct Houtcome as [[Hs _] | (_ & Hnav & Herror & _)]; [discriminate Hs |].
  split_and!; [exact Hrun | exact Hloading | exact Hnav | exact Herror].
Defined.

(** X17 at the acceptable registration form against the accepting server. *)
Lemma RegisterPage_submit_witness :
  let form := RegisterPage.formData register_filled in
  (3 <=? js_length (RegisterPage.username form))%nat = true ∧
  test_whole RegisterPage.emailRegex (RegisterPage.email form) = true ∧
  RegisterPage.every (RegisterPage.check (RegisterPage.password form)) = true ∧
  RegisterPage.password form = RegisterPage.confirmPassword form ∧
  ∃ st' pg',
    RegisterPage.handleSubmit Json.stringify accepting (signed_out, register_filled)
    = ((st', pg'), Normal tt) ∧
    user st' = alice ∧
    RegisterPage.loading pg' = false ∧
    RegisterPage.navigations pg' = ["/dashboard"].
Proof.
  intros form.
  split_and!; [reflexivity | reflexivity | reflexivity | reflexivity |].
  destruct (RegisterPage_submit Json.stringify accepting signed_out
              register_filled eq_refl eq_refl eq_refl eq_refl)
    as (st' & pg' & result & Hrun & Hstore & Hloading & _ & Houtcome).
  exists st', pg'. injection Hstore as <- <-.
  destruct Houtcome as [(_ & Hnav & _) | [Hs _]]; [| discriminate Hs].
  split_and!; [exact Hrun | reflexivity | exact Hloading | exact Hnav].
Defined.

(** X19 at the registration page as it mounts, a password being typed. *)
Lemma RegisterPage_indicator_witness :
  RegisterPage.passwordValidation RegisterPage.initial
  = RegisterPage.check
      (RegisterPage.password (RegisterPage.formData RegisterPage.initial)) ∧
  RegisterPage.passwordValidation
    (RegisterPage.handleChange RegisterPage.password_input "abc1"
       (signed_out, RegisterPage.initial)).1.2
  = RegisterPage.Validation false true true.
Proof.
  split; [reflexivity |].
  exact (proj1 (RegisterPage_indicator Json.stringify accepting signed_out
                  RegisterPage.initial eq_refl)
           RegisterPage.password_input "abc1").
Defined.

(** X25 at a confirmed new password against the accepting server. *)
Lemma ProfilePage_password_outcome_witness :
  let data := ProfilePage.passwordData profile_passwords in
  ProfilePage.newPassword data = ProfilePage.confirmPassword data ∧
  (6 <=? js_length (ProfilePage.newPassword data))%nat = true ∧
  ∃ st' pg',
    ProfilePage.handlePasswordChange accepting (signed_in, profile_passwords)
    = ((st', pg'), Normal tt) ∧
    ProfilePage.loading pg' = false ∧
    ProfilePage.isChangingPassword pg' = false ∧
    ProfilePage.passwordData pg' = ProfilePage.Passwords "" "" "".
Proof.
  intros data. split; [reflexivity |]. split; [reflexivity |].
  destruct (ProfilePage_password_outcome accepting signed_in profile_passwords
              eq_refl eq_refl)
    as (st' & pg' & result & Hrun & Hstore & Hloading & _ & _ & Houtcome).
  exists st', pg'. injection Hstore as <- <-.
  destruct Houtcome as [(_ & Hclosed & Hdata & _) | [Hs _]]; [| discriminate Hs].
  split_and!; [exact Hrun | exact Hloading | exact Hclosed | exact Hdata].
Defined.

(** X22 at a login of [alice], the session store past loading. *)
Lemma login_then_guards_witness :
  let response := VObj [("success", VBool true); ("data", alice)] in
  let run := login Json.stringify accepting (VStr "alice") (VStr "secret")
               signed_in in
  answered signed_in run.1 response ∧
  loading signed_in = false ∧
  ProtectedRoute "Layout" run.1 = Children "Layout".
Proof.
  intros response run.
  assert (answered signed_in run.1 response) as Hanswer by (eexists; reflexivity).
  split; [exact Hanswer |]. split; [reflexivity |].
  exact (proj2 (login_then_guards Json.stringify accepting "Layout"
                  (VStr "alice") (VStr "secret") signed_in run.1 run.2 response
                  eq_refl Hanswer eq_refl eq_refl)).
Defined.

(** X27 at the editor holding one tag. *)
Lemma PromptEditor_tags_invariant_witness :
  NoDup ["ai"] ∧ ("" ∉ ["ai"]) ∧
  NoDup (PromptEditor.tags
           (PromptEditor.prompt_
              (PromptEditor.addTag (signed_out, editor_typing)).1.2)) ∧
  PromptEditor.tags
    (PromptEditor.prompt_ (PromptEditor.addTag (signed_out, editor_typing)).1.2)
  = ["ai"; "seo"].
Proof.
  assert (NoDup ["ai"]) as Hnodup by apply NoDup_singleton.
  assert ("" ∉ ["ai"]) as Hnonempty.
  { intros H%list_elem_of_singleton. discriminate. }
  split; [exact Hnodup |]. split; [exact Hnonempty |].
  split; [| reflexivity].
  exact (proj1 (proj1 (PromptEditor_tags_invariant signed_out editor_typing
                         Hnodup Hnonempty))).
Defined.

(** X28 at the editor holding one tag, a second one typed. *)
Lemma PromptEditor_add_then_remove_witness :
  trim (PromptEditor.newTag editor_typing) = "seo" ∧
  ("seo" ∉ ["ai"]) ∧
  ∃ pg1 pg2,
    PromptEditor.addTag (signed_out, editor_typing)
    = ((signed_out, pg1), Normal tt) ∧
    PromptEditor.removeTag "seo" (signed_out, pg1)
    = ((signed_out, pg2), Normal tt) ∧
    PromptEditor.tags (PromptEditor.prompt_ pg1) = ["ai"; "seo"] ∧
    PromptEditor.newTag pg1 = "" ∧
    PromptEditor.tags (PromptEditor.prompt_ pg2) = ["ai"].
Proof.
  assert ("seo" ≠ "") as Hne by discriminate.
  assert ("seo" ∉ ["ai"]) as Hfresh.
  { intros H%list_elem_of_singleton. discriminate. }
  split; [reflexivity |]. split; [exact Hfresh |].
  exact (PromptEditor_add_then_remove signed_out editor_typing Hne Hfresh).
Defined.

(** X29 at the editor with a tag it already holds typed again. *)
Lemma PromptEditor_addTag_rejected_witness :
  trim (PromptEditor.newTag editor_duplicate) ∈ ["ai"] ∧
  PromptEditor.addTag (signed_out, editor_duplicate)
  = ((signed_out, editor_duplicate), Normal tt).
Proof.
  assert (trim (PromptEditor.newTag editor_duplicate) ∈ ["ai"]) as Hin.
  { apply list_elem_of_singleton. reflexivity. }
  split; [exact Hin |].
  exact (PromptEditor_addTag_rejected signed_out editor_duplicate (or_intror Hin)).
Defined.

(** X23 at a save of [alice]'s profile against the accepting server. *)
Lemma ProfilePage_save_then_cancel_witness :
  let response := VObj [("success", VBool true); ("data", alice)] in
  let pg := ProfilePage.initial alice in
  let run := ProfilePage.handleProfileUpdate Json.stringify accepting
               (signed_in, pg) in
  run.2 = Normal tt ∧
  answered signed_in run.1.1 response ∧
  ∃ pg'',
    ProfilePage.handleCancelEdit run.1 = ((run.1.1, pg''), Normal tt) ∧
    ProfilePage.username (ProfilePage.profileData pg'') = VStr "alice" ∧
    ProfilePage.bio (ProfilePage.profileData pg'') = VStr "".
Proof.
  intros response pg run.
  assert (answered signed_in run.1.1 response) as Hanswer
    by (eexists; reflexivity).
  split; [reflexivity |]. split; [exact Hanswer |].
  destruct (ProfilePage_save_then_cancel Json.stringify accepting signed_in
              run.1.1 pg run.1.2 response eq_refl Hanswer eq_refl)
    as (pg'' & Hrun & Hdata & _).
  exists pg''. split; [exact Hrun |]. rewrite Hdata. split; reflexivity.
Defined.

(** X11 at a name of two words. *)
Lemma setThemeMode_invalid_name_witness :
  existsb ascii_whitespace (list_ascii_of_string "dark mode") = true ∧
  (setThemeMode "dark mode" signed_out).2
  = Throw (Error "InvalidCharacterError" VUndefined) ∧
  localStorage (setThemeMode "dark mode" signed_out).1 !! "theme"
  = Some "dark mode".
Proof.
  split; [reflexivity |].
  destruct (setThemeMode_invalid_name "dark mode" signed_out false ∅ eq_refl)
    as (Hthrow & _ & Hstored & _).
  split; [exact Hthrow | exact Hstored].
Defined.
